(** * SFML fork: BatchTarget and StencilSettings

    A shallow embedding of
      - include/SFML/Graphics/BatchTarget.hpp   (the vertex-batching target)
      - src/SFML/Graphics/StencilSettings.cpp   (stencil state translation)
      - src/SFML/Graphics/RenderStates.cpp      (the fields of RenderStates)
    followed by the properties of the design document that concern them. *)

From stdpp Require Import base numbers list.

Set Default Proof Using "Type".

(** ** StencilSettings *)

Module StencilSettings.

(** enum Operation, StencilSettings.hpp *)
Inductive Operation : Type :=
  | Keep | Zero | Replace | IncrementClamp | DecrementClamp | Invert.

(** enum Function, StencilSettings.hpp *)
Inductive Function : Type :=
  | Never | Less | LessEqual | Greater | GreaterEqual | Equal | NotEqual | Always.

#[global] Instance Operation_eq_dec : EqDecision Operation.
Proof. solve_decision. Defined.

#[global] Instance Function_eq_dec : EqDecision Function.
Proof. solve_decision. Defined.

(** The OpenGL enumerants named by the translation tables. The GL headers
    are not part of the repository; the values are those of gl.h. *)
Definition GL_ZERO     : Z := 0.
Definition GL_NEVER    : Z := 0x0200.
Definition GL_LESS     : Z := 0x0201.
Definition GL_EQUAL    : Z := 0x0202.
Definition GL_LEQUAL   : Z := 0x0203.
Definition GL_GREATER  : Z := 0x0204.
Definition GL_NOTEQUAL : Z := 0x0205.
Definition GL_GEQUAL   : Z := 0x0206.
Definition GL_ALWAYS   : Z := 0x0207.
Definition GL_INVERT   : Z := 0x150A.
Definition GL_KEEP     : Z := 0x1E00.
Definition GL_REPLACE  : Z := 0x1E01.
Definition GL_INCR     : Z := 0x1E02.
Definition GL_DECR     : Z := 0x1E03.

(** StencilSettings::translateOperation *)
Definition translateOperation (op : Operation) : Z :=
  match op with
  | Keep => GL_KEEP
  | Zero => GL_ZERO
  | Replace => GL_REPLACE
  | IncrementClamp => GL_INCR
  | DecrementClamp => GL_INCR
  | Invert => GL_INVERT
  end.

(** StencilSettings::translateFunction *)
Definition translateFunction (func : Function) : Z :=
  match func with
  | Never => GL_NEVER
  | Less => GL_EQUAL
  | LessEqual => GL_LEQUAL
  | Greater => GL_GREATER
  | GreaterEqual => GL_GEQUAL
  | Equal => GL_EQUAL
  | NotEqual => GL_NOTEQUAL
  | Always => GL_ALWAYS
  end.

(** struct StencilSettings: stencilReference is an unsigned int and
    alphaReference a Uint8, both carried as integers. *)
Record t : Type := Build {
  stencilOperation : Operation;
  stencilFunction  : Function;
  stencilReference : Z;
  alphaFunction    : Function;
  alphaReference   : Z;
  drawSelf         : bool
}.

(** StencilSettings::StencilSettings() *)
Definition default : t :=
  {| stencilOperation := Keep; stencilFunction := Always; stencilReference := 0;
     alphaFunction := GreaterEqual; alphaReference := 0; drawSelf := true |}.

(** operator ==(const StencilSettings&, const StencilSettings&) *)
Definition eq (left right : t) : bool :=
  bool_decide (stencilOperation left = stencilOperation right) &&
  bool_decide (stencilFunction left = stencilFunction right) &&
  (stencilReference left =? stencilReference right)%Z &&
  bool_decide (alphaFunction left = alphaFunction right) &&
  (alphaReference left =? alphaReference right)%Z.

(** operator !=(const StencilSettings&, const StencilSettings&) *)
Definition neq (left right : t) : bool := negb (eq left right).

(** StencilSettings::StencilSettings(Function, Operation, unsigned int,
    Function, Uint8, bool): the function comes first among the parameters,
    the operation first among the members. *)
Definition construct (stencilFunctionP : Function) (stencilOperationP : Operation)
    (stencilReferenceP : Z) (alphaFunctionP : Function) (alphaReferenceP : Z)
    (drawSelfP : bool) : t :=
  {| stencilOperation := stencilOperationP; stencilFunction := stencilFunctionP;
     stencilReference := stencilReferenceP; alphaFunction := alphaFunctionP;
     alphaReference := alphaReferenceP; drawSelf := drawSelfP |}.

(** The commonly used stencil settings. *)
Definition StencilCreate : t := construct Always Replace 1 GreaterEqual 255 false.
Definition StencilTrace : t := construct Equal Keep 1 Always 255 true.
Definition StencilDisable : t := default.

(** More enumerants of gl.h, used by apply. *)
Definition GL_FALSE        : Z := 0.
Definition GL_TRUE         : Z := 1.
Definition GL_STENCIL_TEST : Z := 0x0B90.
Definition GL_ALPHA_TEST   : Z := 0x0BC0.

(** The OpenGL calls apply makes, in the order it makes them. The reference
    of glAlphaFunc is a float of type [F]. *)
Inductive GLCall (F : Type) : Type :=
  | glEnable (cap : Z)
  | glAlphaFunc (func : Z) (ref : F)
  | glStencilOp (sfail dpfail dppass : Z)
  | glStencilFunc (func ref mask : Z)
  | glColorMask (red green blue alpha : Z).
Arguments glEnable {F} cap.
Arguments glAlphaFunc {F} func ref.
Arguments glStencilOp {F} sfail dpfail dppass.
Arguments glStencilFunc {F} func ref mask.
Arguments glColorMask {F} red green blue alpha.

(** StencilSettings::apply. The float division alphaReference / 255.f is
    taken as the parameter [over255]. *)
Definition apply {F : Type} (over255 : Z -> F) (s : t) : list (GLCall F) :=
  [ glEnable GL_STENCIL_TEST;
    glEnable GL_ALPHA_TEST;
    glAlphaFunc (translateFunction (alphaFunction s)) (over255 (alphaReference s));
    glStencilOp (translateOperation (stencilOperation s))
                (translateOperation (stencilOperation s))
                (translateOperation (stencilOperation s));
    glStencilFunc (translateFunction (stencilFunction s)) (stencilReference s) 0xFF;
    if negb (drawSelf s)
    then glColorMask GL_FALSE GL_FALSE GL_FALSE GL_FALSE
    else glColorMask GL_TRUE GL_TRUE GL_TRUE GL_TRUE ].

End StencilSettings.

(** ** Failure: assert and out-of-range reads *)

(** The four assertions of draw, in program order. *)
Inductive Conflict : Type :=
  | ViewHasChanged | PrimitiveTypeHasChanged | TextureHasChanged | BlendModeHasChanged.

(** A call either returns, stops at a failed assert, or reads the vector
    outside its bounds (back() of an empty vector, operator[] past the end). *)
Inductive outcome (A : Type) : Type :=
  | Done (a : A)
  | AssertionFailure (c : Conflict)
  | OutOfRange.
Arguments Done {A} a.
Arguments AssertionFailure {A} c.
Arguments OutOfRange {A}.

#[global] Instance outcome_bind : MBind outcome := fun A B k m =>
  match m with
  | Done a => k a
  | AssertionFailure c => AssertionFailure c
  | OutOfRange => OutOfRange
  end.

Definition assert (cond : bool) (c : Conflict) : outcome unit :=
  if cond then Done tt else AssertionFailure c.

(** ** The collaborators of BatchTarget *)

(** Modelled from the spec: the PrimitiveType declaration is not under src/;
    these are the three stored categories and their three connected variants,
    under the names BatchTarget.hpp uses for them. *)
Inductive PrimitiveType : Type :=
  | Points | Lines | LinesStrip | Triangles | TrianglesStrip | TrianglesFan.

#[global] Instance PrimitiveType_eq_dec : EqDecision PrimitiveType.
Proof. solve_decision. Defined.

(** The value types BatchTarget only passes around: 2D points, colours,
    transforms (applied to a point by multiplication), textures (reached through
    a nullable pointer, identified by their native handle), shaders, blend
    modes (compared with operator==) and views. Their declarations are outside
    the repository, so they are taken as an interface. *)
Class Collaborators : Type := {
  Vector2f  : Type;
  Color     : Type;
  Transform : Type;
  Texture   : Type;
  Shader    : Type;
  BlendMode : Type;
  View      : Type;
  transformPoint  : Transform -> Vector2f -> Vector2f;
  getNativeHandle : Texture -> Z;
  BlendMode_eq_dec :: EqDecision BlendMode
}.

Section BatchTargetModel.
Context {C : Collaborators}.

(** sf::Vertex *)
Record Vertex : Type := mkVertex {
  position  : Vector2f;
  color     : Color;
  texCoords : Vector2f
}.

(** sf::RenderStates, with the members RenderStates.cpp initialises. *)
Record RenderStates : Type := mkRenderStates {
  blendMode       : BlendMode;
  stencilSettings : StencilSettings.t;
  transform       : Transform;
  texture         : option Texture;
  shader          : option Shader
}.

(** The members of RenderTarget::StatesCache that BatchTarget.hpp reads or
    writes through m_cache. *)
Record StatesCache : Type := mkStatesCache {
  viewChanged   : bool;
  lastTextureId : Z;
  lastBlendMode : BlendMode
}.

(** The BatchTarget object: the inherited m_view and m_cache, then the
    member data declared at the end of the class. *)
Record BatchTarget : Type := mkBatchTarget {
  m_view                : View;
  m_cache               : StatesCache;
  m_hasDrawnSomething   : bool;
  m_viewWasUsed         : bool;
  m_cachedTexture       : option Texture;
  m_cachedPrimitiveType : PrimitiveType;
  m_vertexArray         : list Vertex
}.

Definition set_viewChanged (b : bool) (c : StatesCache) : StatesCache :=
  mkStatesCache b (lastTextureId c) (lastBlendMode c).

Definition set_lastTextureId (id : Z) (c : StatesCache) : StatesCache :=
  mkStatesCache (viewChanged c) id (lastBlendMode c).

Definition set_cache (c : StatesCache) (s : BatchTarget) : BatchTarget :=
  mkBatchTarget (m_view s) c (m_hasDrawnSomething s) (m_viewWasUsed s)
                (m_cachedTexture s) (m_cachedPrimitiveType s) (m_vertexArray s).

Definition set_hasDrawnSomething (b : bool) (s : BatchTarget) : BatchTarget :=
  mkBatchTarget (m_view s) (m_cache s) b (m_viewWasUsed s)
                (m_cachedTexture s) (m_cachedPrimitiveType s) (m_vertexArray s).

Definition set_viewWasUsed (b : bool) (s : BatchTarget) : BatchTarget :=
  mkBatchTarget (m_view s) (m_cache s) (m_hasDrawnSomething s) b
                (m_cachedTexture s) (m_cachedPrimitiveType s) (m_vertexArray s).

Definition set_cachedTexture (t : option Texture) (s : BatchTarget) : BatchTarget :=
  mkBatchTarget (m_view s) (m_cache s) (m_hasDrawnSomething s) (m_viewWasUsed s)
                t (m_cachedPrimitiveType s) (m_vertexArray s).

Definition set_cachedPrimitiveType (p : PrimitiveType) (s : BatchTarget) : BatchTarget :=
  mkBatchTarget (m_view s) (m_cache s) (m_hasDrawnSomething s) (m_viewWasUsed s)
                (m_cachedTexture s) p (m_vertexArray s).

Definition set_vertexArray (a : list Vertex) (s : BatchTarget) : BatchTarget :=
  mkBatchTarget (m_view s) (m_cache s) (m_hasDrawnSomething s) (m_viewWasUsed s)
                (m_cachedTexture s) (m_cachedPrimitiveType s) a.

(** *** std::size_t and std::vector<Vertex> *)

(** std::size_t is 64 bits wide; conversion to it wraps around. *)
Definition size_t_modulus : Z := 2 ^ 64.
Definition to_size_t (z : Z) : Z := z `mod` size_t_modulus.

(** m_vertexArray.size() *)
Definition size (a : list Vertex) : Z := Z.of_nat (length a).

(** m_vertexArray.push_back(v) *)
Definition push_back (a : list Vertex) (v : Vertex) : list Vertex := a ++ [v].

(** m_vertexArray.back(): the last element; none in an empty vector. *)
Definition back (a : list Vertex) : outcome Vertex :=
  match last a with
  | Some v => Done v
  | None => OutOfRange
  end.

(** m_vertexArray[index], index a std::size_t. *)
Definition at_index (a : list Vertex) (index : Z) : outcome Vertex :=
  match a !! Z.to_nat index with
  | Some v => Done v
  | None => OutOfRange
  end.

(** *** draw(const Vertex*, std::size_t, PrimitiveType, const RenderStates&) *)

(** Lines 73-79: the type stored for a declared type. *)
Definition decomposedType (originalType : PrimitiveType) : PrimitiveType :=
  if decide (originalType = LinesStrip) then Lines
  else if decide (originalType = TrianglesStrip) then Triangles
  else if decide (originalType = TrianglesFan) then Triangles
  else originalType.

(** states.texture ? states.texture->getNativeHandle() : 0 *)
Definition textureHandle (states : RenderStates) : Z :=
  match texture states with
  | Some t => getNativeHandle t
  | None => 0
  end.

(** Lines 85-114: check against the cache, or fill it on the first draw. *)
Definition checkOrRecord (s : BatchTarget) (type : PrimitiveType)
    (states : RenderStates) : outcome BatchTarget :=
  if m_hasDrawnSomething s then
    assert (negb (viewChanged (m_cache s))) ViewHasChanged;;
    assert (bool_decide (m_cachedPrimitiveType s = type)) PrimitiveTypeHasChanged;;
    assert (textureHandle states =? lastTextureId (m_cache s))%Z TextureHasChanged;;
    assert (bool_decide (lastBlendMode (m_cache s) = blendMode states)) BlendModeHasChanged;;
    Done s
  else
    let s := set_hasDrawnSomething true s in
    let s := if viewChanged (m_cache s) then set_viewWasUsed true s else s in
    let s := set_cache (set_viewChanged false (m_cache s)) s in
    let s := set_cachedTexture (texture states) s in
    let s := set_cache (set_lastTextureId (textureHandle states) (m_cache s)) s in
    let s := set_cachedPrimitiveType type s in
    Done s.

(** Lines 122-141: the vertices repeated before input vertex i. *)
Definition duplicate (originalType : PrimitiveType) (i : Z)
    (a : list Vertex) (firstVectorInsertedIndex : Z) : outcome (list Vertex) :=
  if bool_decide (originalType = LinesStrip) && (0 <? i)%Z then
    v ← back a;
    Done (push_back a v)
  else if bool_decide (originalType = TrianglesStrip) && (2 <? i)%Z then
    let lastIndex := to_size_t (size a - 1) in
    let secondToLastIndex := to_size_t (size a - 2) in
    v ← at_index a secondToLastIndex;
    let a := push_back a v in
    w ← at_index a lastIndex;
    Done (push_back a w)
  else if bool_decide (originalType = TrianglesFan) && (2 <? i)%Z then
    let lastIndex := to_size_t (size a - 1) in
    v ← at_index a firstVectorInsertedIndex;
    let a := push_back a v in
    w ← at_index a lastIndex;
    Done (push_back a w)
  else Done a.

(** Lines 144-145: the input vertex with its position transformed. *)
Definition transformVertex (states : RenderStates) (v : Vertex) : Vertex :=
  mkVertex (transformPoint (transform states) (position v)) (color v) (texCoords v).

(** Lines 120-152: one iteration of the loop, on the vector and on
    firstVectorInsertedIndex. *)
Definition loopBody (originalType : PrimitiveType) (states : RenderStates)
    (i : Z) (v : Vertex) (st : list Vertex * Z) : outcome (list Vertex * Z) :=
  let '(a, firstVectorInsertedIndex) := st in
  a ← duplicate originalType i a firstVectorInsertedIndex;
  let transformedVertex := transformVertex states v in
  let a := push_back a transformedVertex in
  let firstVectorInsertedIndex :=
    if (firstVectorInsertedIndex =? to_size_t (-1))%Z
    then to_size_t (size a - 1)
    else firstVectorInsertedIndex in
  Done (a, firstVectorInsertedIndex).

(** Line 119: for (i = 0; i < vertexCount; i++), over vertices[i..]. *)
Fixpoint drawLoop (originalType : PrimitiveType) (states : RenderStates)
    (i : Z) (vertices : list Vertex) (st : list Vertex * Z)
    : outcome (list Vertex * Z) :=
  match vertices with
  | [] => Done st
  | v :: rest =>
      st ← loopBody originalType states i v st;
      drawLoop originalType states (i + 1) rest st
  end.

(** The whole function; vertexCount is the length of vertices. *)
Definition draw (s : BatchTarget) (vertices : list Vertex)
    (type : PrimitiveType) (states : RenderStates) : outcome BatchTarget :=
  let originalType := type in
  let type := decomposedType originalType in
  s ← checkOrRecord s type states;
  let firstVectorInsertedIndex := to_size_t (-1) in
  st ← drawLoop originalType states 0 vertices (m_vertexArray s, firstVectorInsertedIndex);
  Done (set_vertexArray st.1 s).

(** *** clear, clearView, setView *)

(** BatchTarget::clear; NULL is None and the colour is ignored. *)
Definition clear (s : BatchTarget) : BatchTarget :=
  let s := set_hasDrawnSomething false s in
  let s := set_cachedTexture None s in
  set_vertexArray [] s.

(** BatchTarget::clearView *)
Definition clearView (s : BatchTarget) : BatchTarget :=
  let s := set_viewWasUsed false s in
  set_cache (set_viewChanged false (m_cache s)) s.

(** Modelled from the spec: RenderTarget::setView is inherited and its body
    is not under src/. It stores the view and marks it as declared; a
    declaration made after the first submission is caught by the next one. *)
Definition setView (v : View) (s : BatchTarget) : BatchTarget :=
  mkBatchTarget v (set_viewChanged true (m_cache s)) (m_hasDrawnSomething s)
                (m_viewWasUsed s) (m_cachedTexture s) (m_cachedPrimitiveType s)
                (m_vertexArray s).

(** RenderTarget::getView of the BatchTarget itself. *)
Definition getView (s : BatchTarget) : View := m_view s.

(** *** The target of a replay *)

(** One call of target.draw(pointer, count, type, states), with the view
    the target had when it was issued. *)
Record DrawCall : Type := mkDrawCall {
  call_view        : View;
  call_vertices    : list Vertex;
  call_vertexCount : Z;
  call_type        : PrimitiveType;
  call_states      : RenderStates
}.

(** Modelled from the spec: the rendering surface is an external
    RenderTarget, of which the replay uses getView, setView, getDefaultView
    and draw. Its state is its current view, its default view and the draw
    calls it has received, oldest first. *)
Record Surface : Type := mkSurface {
  surface_view        : View;
  surface_defaultView : View;
  surface_calls       : list DrawCall
}.

Definition target_getView (t : Surface) : View := surface_view t.
Definition target_getDefaultView (t : Surface) : View := surface_defaultView t.
Definition target_setView (v : View) (t : Surface) : Surface :=
  mkSurface v (surface_defaultView t) (surface_calls t).
Definition target_draw (vertices : list Vertex) (vertexCount : Z)
    (type : PrimitiveType) (states : RenderStates) (t : Surface) : Surface :=
  mkSurface (surface_view t) (surface_defaultView t)
            (surface_calls t ++
             [mkDrawCall (surface_view t) vertices vertexCount type states]).

(** *** draw(RenderTarget&, RenderStates) const *)

(** Lines 227-228: the texture and blend mode written over the states. *)
Definition overlay (s : BatchTarget) (states : RenderStates) : RenderStates :=
  mkRenderStates (lastBlendMode (m_cache s)) (stencilSettings states)
                 (transform states) (m_cachedTexture s) (shader states).

Definition drawTo (s : BatchTarget) (target : Surface) (states : RenderStates)
    : Surface :=
  let backupView := target_getView target in
  let target :=
    if m_viewWasUsed s
    then target_setView (getView s) target
    else target_setView (target_getDefaultView target) target in
  let states := overlay s states in
  let target :=
    target_draw (m_vertexArray s) (size (m_vertexArray s))
                (m_cachedPrimitiveType s) states target in
  if m_viewWasUsed s then target_setView backupView target else target.

End BatchTargetModel.

(** ** The primitives of the design document *)

Section Primitives.
Context {A : Type}.

(** The stored stream read as Lines: consecutive groups of two. *)
Fixpoint inPairs (l : list A) : list (A * A) :=
  match l with
  | a :: b :: rest => (a, b) :: inPairs rest
  | _ => []
  end.

(** The stored stream read as Triangles: consecutive groups of three. *)
Fixpoint inTriples (l : list A) : list (A * A * A) :=
  match l with
  | a :: b :: c :: rest => (a, b, c) :: inTriples rest
  | _ => []
  end.

Definition flattenPairs (l : list (A * A)) : list A :=
  flat_map (fun p => [p.1; p.2]) l.

Definition flattenTriples (l : list (A * A * A)) : list A :=
  flat_map (fun t => [t.1.1; t.1.2; t.2]) l.

(** The segments of a line strip: (v0,v1), (v1,v2), ..., (v_{N-2},v_{N-1}). *)
Fixpoint stripSegments (l : list A) : list (A * A) :=
  match l with
  | a :: rest =>
      match rest with
      | b :: _ => (a, b) :: stripSegments rest
      | [] => []
      end
  | [] => []
  end.

(** The triangles of a triangle strip, each from three consecutive input
    vertices in input order: (v0,v1,v2), (v1,v2,v3), ... *)
Fixpoint stripTriangles (l : list A) : list (A * A * A) :=
  match l with
  | a :: rest =>
      match rest with
      | b :: c :: _ => (a, b, c) :: stripTriangles rest
      | _ => []
      end
  | [] => []
  end.

(** The triangles around an apex: (apex,v1,v2), (apex,v2,v3), ... *)
Fixpoint fanAround (apex : A) (l : list A) : list (A * A * A) :=
  match l with
  | a :: rest =>
      match rest with
      | b :: _ => (apex, a, b) :: fanAround apex rest
      | [] => []
      end
  | [] => []
  end.

(** The triangles of a triangle fan: (v0,v1,v2), (v0,v2,v3), ...,
    (v0,v_{N-2},v_{N-1}). *)
Definition fanTriangles (l : list A) : list (A * A * A) :=
  match l with
  | apex :: rest => fanAround apex rest
  | [] => []
  end.

(** What a strip or fan call stores: its triangles, or the input as it is
    when it has fewer than three vertices. *)
Definition storedTriangles (tris : list A -> list (A * A * A)) (l : list A) : list A :=
  if decide (length l < 3) then l else flattenTriples (tris l).

End Primitives.

(** What the loop of draw appends for a call of declared type [ty] whose
    transformed input is [input] (proved below, [draw_stores]): a line strip
    comes out as its first vertex followed by its segments. *)
Definition storedBy {A : Type} (ty : PrimitiveType) (input : list A) : list A :=
  match ty with
  | LinesStrip =>
      match input with
      | [] => []
      | v :: _ => v :: flattenPairs (stripSegments input)
      end
  | TrianglesStrip => storedTriangles stripTriangles input
  | TrianglesFan => storedTriangles fanTriangles input
  | _ => input
  end.

(** The connected types, which draw rewrites. *)
Definition composite (ty : PrimitiveType) : bool :=
  bool_decide (ty = LinesStrip) || bool_decide (ty = TrianglesStrip)
  || bool_decide (ty = TrianglesFan).

(** Triangle [k] of a stream occupies positions 3k, 3k+1 and 3k+2. With the
    vertices of one call stored from position [boundary] on, the triangle has
    vertices of both calls when it starts before the boundary and ends at or
    after it. *)
Definition straddles (boundary k : nat) : Prop :=
  3 * k < boundary /\ boundary <= 3 * k + 2.

(** A vector whose size fits in std::size_t. *)
Definition fitsSizeT (n : nat) : Prop := (Z.of_nat n < 2 ^ 64)%Z.

(** ** A concrete instance of the collaborators *)

Module Demo.

(** Four of the predefined blend modes. *)
Inductive blend : Type := BlendAlpha | BlendAdd | BlendMultiply | BlendNone.

#[global] Instance blend_eq_dec : EqDecision blend.
Proof. solve_decision. Defined.

(** Points with integer coordinates, translations for transforms, textures
    named by their handle. *)
Definition collaborators : Collaborators := {|
  Vector2f := Z * Z;
  Color := Z;
  Transform := Z * Z;
  Texture := Z;
  Shader := unit;
  BlendMode := blend;
  View := Z;
  transformPoint := fun t p => (p.1 + t.1, p.2 + t.2)%Z;
  getNativeHandle := fun t => t;
  BlendMode_eq_dec := blend_eq_dec
|}.

#[local] Existing Instance collaborators.

Definition identity : Transform := (0, 0)%Z.

Definition vertexAt (x y : Z) : Vertex := mkVertex (x, y) 255%Z (0, 0)%Z.

Definition statesWith (b : BlendMode) (t : option Texture) : RenderStates :=
  mkRenderStates b StencilSettings.default identity t None.

(** A BatchTarget on which nothing was drawn and no view is declared: the
    cache holds the default blend mode, alpha blending. *)
Definition fresh : BatchTarget :=
  mkBatchTarget 0%Z (mkStatesCache false 0%Z BlendAlpha) false false None Points [].

(** A window showing view 7 whose default view is view 1. *)
Definition window : Surface := mkSurface 7%Z 1%Z [].

Definition plain : RenderStates := statesWith BlendAlpha None.
Definition additive : RenderStates := statesWith BlendAdd None.

(** [fresh] once a first submission without texture has stored [a] as [ty]. *)
Definition committed (ty : PrimitiveType) (a : list Vertex) : BatchTarget :=
  mkBatchTarget 0%Z (mkStatesCache false 0%Z BlendAlpha) true false None ty a.

(** A cycle that ended with view 5 in use, then a declaration of view 6. *)
Definition usedView : BatchTarget :=
  mkBatchTarget 6%Z (mkStatesCache true 0%Z BlendAlpha) true true None Triangles [].

Definition c0 : Vertex := vertexAt 0 0.
Definition c1 : Vertex := vertexAt 10 0.
Definition c2 : Vertex := vertexAt 10 10.
Definition c3 : Vertex := vertexAt 0 10.
Definition c4 : Vertex := vertexAt 20 20.

End Demo.

(** ** Sequences of calls *)

Section BatchTargetCallers.
Context {C : Collaborators}.

(** The arguments of one call of draw. *)
Record Submission : Type := mkSubmission {
  sub_vertices : list Vertex;
  sub_type     : PrimitiveType;
  sub_states   : RenderStates
}.

(** What the call stores when it is accepted. *)
Definition storedFor (x : Submission) : list Vertex :=
  storedBy (sub_type x) (map (transformVertex (sub_states x)) (sub_vertices x)).

(** The calls of draw a caller makes one after the other on one BatchTarget;
    the first failure ends the sequence. *)
Fixpoint drawAll (s : BatchTarget) (calls : list Submission) : outcome BatchTarget :=
  match calls with
  | [] => Done s
  | x :: rest =>
      s ← draw s (sub_vertices x) (sub_type x) (sub_states x);
      drawAll s rest
  end.

(** The number of input vertices of a sequence of calls. *)
Definition inputCount (calls : list Submission) : nat :=
  sum_list (map (fun x => length (sub_vertices x)) calls).

End BatchTargetCallers.

(** * Properties *)

(** ** Arithmetic on std::size_t and reads of the vector *)

Section VectorFacts.
Context {C : Collaborators}.

Lemma to_size_t_small (z : Z) :
  (0 <= z < 2 ^ 64)%Z -> to_size_t z = z.
Proof. intros Hz. unfold to_size_t, size_t_modulus. by apply Z.mod_small. Qed.

Lemma sentinel_value : to_size_t (-1) = (2 ^ 64 - 1)%Z.
Proof. reflexivity. Qed.

Lemma size_app (a b : list Vertex) : size (a ++ b) = (size a + size b)%Z.
Proof. unfold size. rewrite length_app. lia. Qed.

Lemma at_index_middle (a b : list Vertex) (x : Vertex) :
  at_index (a ++ x :: b) (Z.of_nat (length a)) = Done x.
Proof.
  unfold at_index. rewrite Nat2Z.id.
  by rewrite list_lookup_middle.
Qed.

Lemma at_index_app_l (a b : list Vertex) (i : Z) (x : Vertex) :
  at_index a i = Done x -> at_index (a ++ b) i = Done x.
Proof.
  unfold at_index. destruct (a !! Z.to_nat i) as [v|] eqn:E; [|done].
  intros [= ->]. by rewrite (lookup_app_l_Some _ _ _ _ E).
Qed.

Lemma back_snoc (a : list Vertex) (x : Vertex) : back (a ++ [x]) = Done x.
Proof. unfold back. by rewrite last_snoc. Qed.

End VectorFacts.

(** ** The loop of draw, one declared type at a time *)

Section LoopFacts.
Context {C : Collaborators}.
Implicit Types (a : list Vertex) (vs : list Vertex) (rs : RenderStates).

(** Points, Lines, Triangles: every input vertex is stored once. *)
Lemma drawLoop_simple ty rs vs i a f :
  composite ty = false ->
  exists f', drawLoop ty rs i vs (a, f) = Done (a ++ map (transformVertex rs) vs, f').
Proof.
  intros Hty. revert i a f.
  induction vs as [|v vs IH]; intros i a f; simpl.
  - exists f. by rewrite app_nil_r.
  - unfold duplicate. destruct ty; try discriminate Hty; simpl;
      (edestruct IH as [f' ->]; exists f'; unfold push_back;
       by rewrite <- app_assoc).
Qed.

(** LinesStrip, past the first input vertex: the last stored vertex is
    repeated before every input vertex. *)
Lemma drawLoop_lines_tail rs vs i a x f :
  (0 < i)%Z ->
  exists f', drawLoop LinesStrip rs i vs (a ++ [x], f)
    = Done (a ++ x :: flattenPairs (stripSegments (x :: map (transformVertex rs) vs)), f').
Proof.
  revert i a x f.
  induction vs as [|v vs IH]; intros i a x f Hi; simpl.
  - by exists f.
  - unfold duplicate. simpl.
    destruct (Z.ltb_spec 0 i) as [_|?]; [|lia]. simpl.
    rewrite back_snoc. simpl. unfold push_back.
    set (f1 := if (f =? _)%Z then _ else _).
    replace (((a ++ [x]) ++ [x]) ++ [transformVertex rs v])
      with ((a ++ [x; x]) ++ [transformVertex rs v])
      by (rewrite <- !app_assoc; reflexivity).
    edestruct (IH (i + 1)%Z (a ++ [x; x]) (transformVertex rs v) f1) as [f' ->]; [lia|].
    exists f'. do 2 f_equal. rewrite <- app_assoc. reflexivity.
Qed.

(** LinesStrip, whole call: the first vertex, then the segments. *)
Lemma drawLoop_lines rs vs a f :
  exists f', drawLoop LinesStrip rs 0 vs (a, f)
    = Done (a ++ match vs with
                 | [] => []
                 | v :: _ => transformVertex rs v
                     :: flattenPairs (stripSegments (map (transformVertex rs) vs))
                 end, f').
Proof.
  destruct vs as [|v vs]; simpl.
  - exists f. by rewrite app_nil_r.
  - unfold duplicate. simpl. unfold push_back.
    set (f1 := if (f =? _)%Z then _ else _).
    destruct (drawLoop_lines_tail rs vs (0 + 1)%Z a (transformVertex rs v) f1)
      as [f' Hf']; [lia|].
    exists f'. rewrite Hf'. reflexivity.
Qed.

Lemma read_second_to_last a x y :
  fitsSizeT (length (a ++ [x; y])) ->
  at_index (a ++ [x; y]) (to_size_t (size (a ++ [x; y]) - 2)) = Done x.
Proof.
  unfold fitsSizeT, size. rewrite length_app. simpl. intros Hfit.
  rewrite to_size_t_small by lia.
  replace (Z.of_nat (length a + 2) - 2)%Z with (Z.of_nat (length a)) by lia.
  apply at_index_middle.
Qed.

Lemma read_last_after_push a x y z :
  fitsSizeT (length (a ++ [x; y])) ->
  at_index (push_back (a ++ [x; y]) z) (to_size_t (size (a ++ [x; y]) - 1)) = Done y.
Proof.
  unfold fitsSizeT, size, push_back. rewrite length_app. simpl. intros Hfit.
  rewrite to_size_t_small by lia.
  replace (Z.of_nat (length a + 2) - 1)%Z with (Z.of_nat (length (a ++ [x]))).
  - replace ((a ++ [x; y]) ++ [z]) with ((a ++ [x]) ++ y :: [z])
      by (rewrite <- !app_assoc; reflexivity).
    apply at_index_middle.
  - rewrite length_app. simpl. lia.
Qed.

Lemma stripTriangles_cons3 {A : Type} (x y z : A) (l : list A) :
  stripTriangles (x :: y :: z :: l) = (x, y, z) :: stripTriangles (y :: z :: l).
Proof. reflexivity. Qed.

Lemma fanAround_cons2 {A : Type} (apex x y : A) (l : list A) :
  fanAround apex (x :: y :: l) = (apex, x, y) :: fanAround apex (y :: l).
Proof. reflexivity. Qed.

(** TrianglesStrip, past the third input vertex: the last two stored
    vertices are repeated before every input vertex. *)
Lemma drawLoop_strip_tail rs vs i a x y f :
  (2 < i)%Z ->
  fitsSizeT (length (a ++ [x; y]) + 3 * length vs) ->
  exists f', drawLoop TrianglesStrip rs i vs (a ++ [x; y], f)
    = Done (a ++ [x; y]
              ++ flattenTriples (stripTriangles (x :: y :: map (transformVertex rs) vs)), f').
Proof.
  revert i a x y f.
  induction vs as [|v vs IH]; intros i a x y f Hi Hfit.
  - exists f. simpl. reflexivity.
  - assert (Hnow : fitsSizeT (length (a ++ [x; y])))
      by (unfold fitsSizeT in *; simpl in Hfit; lia).
    cbn [drawLoop loopBody]. unfold duplicate.
    destruct (Z.ltb_spec 2 i) as [_|?]; [|lia].
    cbn [bool_decide decide_rel andb].
    rewrite (bool_decide_eq_false_2 (TrianglesStrip = LinesStrip)) by discriminate.
    rewrite (bool_decide_eq_true_2 (TrianglesStrip = TrianglesStrip)) by reflexivity.
    cbn [andb].
    rewrite read_second_to_last by exact Hnow. cbn [mbind outcome_bind].
    rewrite read_last_after_push by exact Hnow. cbn [mbind outcome_bind].
    set (f1 := if (f =? _)%Z then _ else _). clearbody f1.
    set (t := transformVertex rs v).
    replace (push_back (push_back (push_back (a ++ [x; y]) x) y) t)
      with ((a ++ [x; y; x]) ++ [y; t])
      by (unfold push_back; rewrite <- !app_assoc; reflexivity).
    destruct (IH (i + 1)%Z (a ++ [x; y; x]) y t f1) as [f' Hf']; [lia| |].
    + unfold fitsSizeT in *. rewrite !length_app in *. simpl in *. lia.
    + exists f'. rewrite Hf'. cbn [map]. fold t.
      rewrite stripTriangles_cons3. do 2 f_equal.
      rewrite <- !app_assoc. reflexivity.
Qed.

(** TrianglesFan, past the third input vertex: the first vertex of the call
    and the last stored vertex are repeated before every input vertex. *)
Lemma drawLoop_fan_tail rs vs i a y f apex :
  (2 < i)%Z ->
  fitsSizeT (length (a ++ [y]) + 3 * length vs) ->
  f <> to_size_t (-1) ->
  at_index a f = Done apex ->
  drawLoop TrianglesFan rs i vs (a ++ [y], f)
    = Done (a ++ [y]
              ++ flattenTriples (fanAround apex (y :: map (transformVertex rs) vs)), f).
Proof.
  revert i a y.
  induction vs as [|v vs IH]; intros i a y Hi Hfit Hf Hapex.
  - simpl. reflexivity.
  - cbn [drawLoop loopBody]. unfold duplicate.
    destruct (Z.ltb_spec 2 i) as [_|?]; [|lia].
    rewrite (bool_decide_eq_false_2 (TrianglesFan = LinesStrip)) by discriminate.
    rewrite (bool_decide_eq_false_2 (TrianglesFan = TrianglesStrip)) by discriminate.
    rewrite (bool_decide_eq_true_2 (TrianglesFan = TrianglesFan)) by reflexivity.
    cbn [andb].
    rewrite (at_index_app_l a [y] f apex Hapex). cbn [mbind outcome_bind].
    assert (Hlast : at_index (push_back (a ++ [y]) apex)
                      (to_size_t (size (a ++ [y]) - 1)) = Done y).
    { unfold size, push_back. rewrite length_app. simpl.
      unfold fitsSizeT in Hfit. rewrite length_app in Hfit. simpl in Hfit.
      rewrite to_size_t_small by lia.
      replace (Z.of_nat (length a + 1) - 1)%Z with (Z.of_nat (length a)) by lia.
      rewrite <- app_assoc. apply at_index_middle. }
    rewrite Hlast. cbn [mbind outcome_bind].
    destruct (Z.eqb_spec f (to_size_t (-1))) as [?|_]; [done|].
    set (t := transformVertex rs v).
    replace (push_back (push_back (push_back (a ++ [y]) apex) y) t)
      with ((a ++ [y; apex; y]) ++ [t])
      by (unfold push_back; rewrite <- !app_assoc; reflexivity).
    rewrite (IH (i + 1)%Z (a ++ [y; apex; y]) t); [|lia| |done|].
    + cbn [map]. fold t. rewrite fanAround_cons2. do 2 f_equal.
      rewrite <- !app_assoc. reflexivity.
    + unfold fitsSizeT in *. rewrite !length_app in *. simpl in *. lia.
    + by apply at_index_app_l.
Qed.

(** Nothing is repeated before the first three vertices of a strip or fan. *)
Lemma duplicate_none ty i a f :
  ty <> LinesStrip -> (i <= 2)%Z -> duplicate ty i a f = Done a.
Proof.
  intros Hty Hi. unfold duplicate.
  rewrite (bool_decide_eq_false_2 _ Hty).
  destruct (Z.ltb_spec 2 i) as [?|_]; [lia|].
  by rewrite !andb_false_r.
Qed.

Local Ltac first_iterations :=
  repeat (cbn [drawLoop loopBody];
          rewrite duplicate_none by (done || lia);
          cbn [mbind outcome_bind]).

(** Calls of at most two vertices store them as they are. *)
Local Ltac short_call :=
  eexists; first_iterations;
  unfold storedTriangles, push_back; cbn [drawLoop map length];
  destruct (decide _) as [_|?]; [|lia];
  rewrite <- ?app_assoc, ?app_nil_r; reflexivity.

(** TrianglesStrip, whole call. *)
Lemma drawLoop_strip rs vs a f :
  fitsSizeT (length a + 3 * length vs) ->
  exists f', drawLoop TrianglesStrip rs 0 vs (a, f)
    = Done (a ++ storedTriangles stripTriangles (map (transformVertex rs) vs), f').
Proof.
  intros Hfit.
  destruct vs as [|v0 [|v1 [|v2 vs]]]; [short_call..|].
  first_iterations.
  set (t0 := transformVertex rs v0). set (t1 := transformVertex rs v1).
  set (t2 := transformVertex rs v2).
  match goal with |- context [drawLoop _ _ _ _ (_, ?g)] => generalize g end.
  intros f1.
  replace (push_back (push_back (push_back a t0) t1) t2)
    with ((a ++ [t0]) ++ [t1; t2])
    by (unfold push_back; rewrite <- !app_assoc; reflexivity).
  destruct (drawLoop_strip_tail rs vs (0 + 1 + 1 + 1)%Z (a ++ [t0]) t1 t2 f1) as [f' Hf']; [lia| |].
  - unfold fitsSizeT in *. rewrite !length_app. simpl in *. lia.
  - exists f'. rewrite Hf'. unfold storedTriangles. cbn [map length].
    destruct (decide _) as [?|_]; [lia|].
    fold t0 t1 t2. rewrite stripTriangles_cons3. do 2 f_equal.
    rewrite <- !app_assoc. reflexivity.
Qed.

(** TrianglesFan, whole call, firstVectorInsertedIndex starting at -1. *)
Lemma drawLoop_fan rs vs a :
  fitsSizeT (length a + 3 * length vs) ->
  exists f', drawLoop TrianglesFan rs 0 vs (a, to_size_t (-1))
    = Done (a ++ storedTriangles fanTriangles (map (transformVertex rs) vs), f').
Proof.
  intros Hfit.
  destruct vs as [|v0 [|v1 [|v2 vs]]]; [short_call..|].
  first_iterations.
  set (t0 := transformVertex rs v0). set (t1 := transformVertex rs v1).
  set (t2 := transformVertex rs v2).
  rewrite Z.eqb_refl.
  assert (Hfirst : to_size_t (size (push_back a t0) - 1) = Z.of_nat (length a)).
  { unfold size, push_back. rewrite length_app. simpl.
    unfold fitsSizeT in Hfit. rewrite to_size_t_small; lia. }
  rewrite Hfirst.
  assert (Hne : Z.of_nat (length a) <> to_size_t (-1)).
  { rewrite sentinel_value. unfold fitsSizeT in Hfit. simpl in Hfit. lia. }
  replace (push_back (push_back (push_back a t0) t1) t2)
    with ((a ++ [t0; t1]) ++ [t2])
    by (unfold push_back; rewrite <- !app_assoc; reflexivity).
  rewrite !(proj2 (Z.eqb_neq _ _) Hne).
  exists (Z.of_nat (length a)).
  rewrite (drawLoop_fan_tail rs vs (0 + 1 + 1 + 1)%Z (a ++ [t0; t1]) t2 _ t0); [|lia| |done|].
  - unfold storedTriangles. cbn [map length].
    destruct (decide _) as [?|_]; [lia|].
    fold t0 t1 t2. unfold fanTriangles. rewrite fanAround_cons2. do 2 f_equal.
    rewrite <- !app_assoc. reflexivity.
  - unfold fitsSizeT in *. rewrite !length_app. simpl in *. lia.
  - apply at_index_middle.
Qed.

End LoopFacts.

(** ** draw as a whole *)

Section DrawFacts.
Context {C : Collaborators}.
Implicit Types (s : BatchTarget) (vs : list Vertex) (rs : RenderStates).

Lemma checkOrRecord_vertexArray s ty rs s1 :
  checkOrRecord s ty rs = Done s1 -> m_vertexArray s1 = m_vertexArray s.
Proof.
  unfold checkOrRecord. destruct (m_hasDrawnSomething s).
  - unfold assert.
    repeat (match goal with |- context [if ?b then _ else _] => destruct b end;
            cbn [mbind outcome_bind]; try discriminate).
    by intros [= <-].
  - intros [= <-]. by destruct (viewChanged (m_cache s)).
Qed.

(** A call that returns has passed the checks. *)
Lemma draw_Done_inv s vs ty rs s' :
  draw s vs ty rs = Done s' ->
  exists s1 a, checkOrRecord s (decomposedType ty) rs = Done s1
               /\ s' = set_vertexArray a s1.
Proof.
  unfold draw. destruct (checkOrRecord _ _ _) as [s1| |]; try discriminate.
  cbn [mbind outcome_bind].
  destruct (drawLoop _ _ _ _ _) as [[a f]| |]; try discriminate.
  cbn [mbind outcome_bind]. intros [= <-]. by exists s1, a.
Qed.

Lemma draw_stores s vs ty rs s1 :
  fitsSizeT (length (m_vertexArray s) + 3 * length vs) ->
  checkOrRecord s (decomposedType ty) rs = Done s1 ->
  draw s vs ty rs
    = Done (set_vertexArray
              (m_vertexArray s ++ storedBy ty (map (transformVertex rs) vs)) s1).
Proof.
  intros Hfit Hcheck. unfold draw. rewrite Hcheck. cbn [mbind outcome_bind].
  rewrite (checkOrRecord_vertexArray _ _ _ _ Hcheck).
  assert (exists f', drawLoop ty rs 0 vs (m_vertexArray s, to_size_t (-1))
            = Done (m_vertexArray s ++ storedBy ty (map (transformVertex rs) vs), f'))
    as [f' ->].
  { destruct ty; cbn [storedBy];
      try (by apply drawLoop_simple);
      try (by apply drawLoop_strip); try (by apply drawLoop_fan).
    destruct (drawLoop_lines rs vs (m_vertexArray s) (to_size_t (-1))) as [f' Hf'].
    exists f'. rewrite Hf'. by destruct vs. }
  reflexivity.
Qed.

End DrawFacts.

(** ** Segments and triangles *)

Section PrimitiveFacts.
Context {A : Type}.
Implicit Types (l : list A).

Lemma length_flattenPairs (ps : list (A * A)) :
  length (flattenPairs ps) = 2 * length ps.
Proof. induction ps as [|p ps IH]; simpl; [done|]. rewrite IH. lia. Qed.

Lemma length_flattenTriples (ts : list (A * A * A)) :
  length (flattenTriples ts) = 3 * length ts.
Proof. induction ts as [|t ts IH]; simpl; [done|]. rewrite IH. lia. Qed.

Lemma inTriples_flatten_app (ts : list (A * A * A)) l :
  inTriples (flattenTriples ts ++ l) = ts ++ inTriples l.
Proof.
  induction ts as [|[[a b] c] ts IH]; [done|].
  cbn [flattenTriples flat_map fst snd app inTriples].
  unfold flattenTriples in IH. by rewrite IH.
Qed.

Lemma inTriples_flatten (ts : list (A * A * A)) :
  inTriples (flattenTriples ts) = ts.
Proof.
  rewrite <- (app_nil_r (flattenTriples ts)), inTriples_flatten_app.
  apply app_nil_r.
Qed.

Lemma length_stripSegments l : length (stripSegments l) = length l - 1.
Proof.
  induction l as [|a [|b l] IH]; [done..|].
  change (stripSegments (a :: b :: l)) with ((a, b) :: stripSegments (b :: l)).
  cbn [length] in *. lia.
Qed.

Lemma length_stripTriangles l : length (stripTriangles l) = length l - 2.
Proof.
  induction l as [|a [|b [|c l]] IH]; [done..|].
  change (stripTriangles (a :: b :: c :: l))
    with ((a, b, c) :: stripTriangles (b :: c :: l)).
  cbn [length] in *. lia.
Qed.

Lemma length_fanAround apex l : length (fanAround apex l) = length l - 1.
Proof.
  induction l as [|a [|b l] IH]; [done..|].
  change (fanAround apex (a :: b :: l)) with ((apex, a, b) :: fanAround apex (b :: l)).
  cbn [length] in *. lia.
Qed.

Lemma length_fanTriangles l : length (fanTriangles l) = length l - 2.
Proof.
  destruct l as [|apex l]; [done|].
  unfold fanTriangles. rewrite length_fanAround. cbn [length]. lia.
Qed.

(** Triangle k of a fan is (v0, v_{k+1}, v_{k+2}). *)
Lemma fanAround_lookup apex l k a b :
  l !! k = Some a -> l !! (k + 1) = Some b ->
  fanAround apex l !! k = Some (apex, a, b).
Proof.
  revert k. induction l as [|x [|y l] IH]; intros k Ha Hb; [done| |].
  - destruct k; [done|]. by destruct k.
  - change (fanAround apex (x :: y :: l)) with ((apex, x, y) :: fanAround apex (y :: l)).
    destruct k as [|k].
    + simpl in *. congruence.
    + simpl in Ha, Hb. simpl. by apply IH.
Qed.

Lemma fanTriangles_lookup l k v0 a b :
  l !! 0 = Some v0 -> l !! (k + 1) = Some a -> l !! (k + 2) = Some b ->
  fanTriangles l !! k = Some (v0, a, b).
Proof.
  destruct l as [|apex l]; [done|]. intros [= ->] Ha Hb.
  unfold fanTriangles. apply fanAround_lookup.
  - by rewrite Nat.add_1_r in Ha.
  - replace (k + 2) with (S (k + 1)) in Hb by lia. done.
Qed.

(** Triangle k of a strip is (v_k, v_{k+1}, v_{k+2}). *)
Lemma stripTriangles_lookup l k a b c :
  l !! k = Some a -> l !! (k + 1) = Some b -> l !! (k + 2) = Some c ->
  stripTriangles l !! k = Some (a, b, c).
Proof.
  revert k. induction l as [|x [|y [|z l]] IH]; intros k Ha Hb Hc; [done| | |].
  - destruct k; [done|]. by destruct k.
  - destruct k as [|[|k]]; [done..|]. by destruct k.
  - change (stripTriangles (x :: y :: z :: l))
      with ((x, y, z) :: stripTriangles (y :: z :: l)).
    destruct k as [|k].
    + simpl in *. congruence.
    + simpl in Ha, Hb, Hc. simpl. by apply IH.
Qed.

(** A stream cut after a whole number of triangles is read piecewise. *)
Lemma inTriples_app l1 l2 :
  length l1 `mod` 3 = 0 -> inTriples (l1 ++ l2) = inTriples l1 ++ inTriples l2.
Proof.
  remember (length l1) as n eqn:Hn. revert l1 Hn.
  induction (lt_wf n) as [n _ IH]. intros l1 Hn Hmod.
  destruct l1 as [|a [|b [|c l1]]]; [done| | |].
  - subst n. simpl in Hmod. discriminate.
  - subst n. simpl in Hmod. discriminate.
  - cbn [app inTriples]. f_equal.
    apply (IH (length l1)); [subst n; simpl; lia|done|].
    subst n. cbn [length] in Hmod.
    replace (S (S (S (length l1)))) with (length l1 + 1 * 3) in Hmod by lia.
    by rewrite Nat.Div0.mod_add in Hmod.
Qed.

End PrimitiveFacts.

(** ** StencilSettings: translation tables and comparison *)

Section StencilProperties.
Import StencilSettings.

(** C8. The translation tables are not one-to-one: translateFunction sends
    the two distinct functions Less and Equal to the same hardware code
    (GL_EQUAL), and translateOperation sends the two distinct operations
    IncrementClamp and DecrementClamp to the same hardware code (GL_INCR). *)
Theorem translation_tables_not_one_to_one :
  Less <> Equal
  /\ translateFunction Less = translateFunction Equal
  /\ translateFunction Less = GL_EQUAL
  /\ IncrementClamp <> DecrementClamp
  /\ translateOperation IncrementClamp = translateOperation DecrementClamp
  /\ translateOperation DecrementClamp = GL_INCR
  /\ ~ Inj (=) (=) translateFunction
  /\ ~ Inj (=) (=) translateOperation.
Proof.
  repeat split; try done.
  - intros Hinj. by specialize (Hinj Less Equal eq_refl).
  - intros Hinj. by specialize (Hinj IncrementClamp DecrementClamp eq_refl).
Qed.

(** The codes for "less" and "decrement" are never produced. *)
Lemma translation_tables_miss_codes :
  (forall f, translateFunction f <> GL_LESS)
  /\ (forall op, translateOperation op <> GL_DECR).
Proof. split; intros []; done. Qed.

(** C9. Equality of StencilSettings ignores drawSelf: two values that agree
    on stencilOperation, stencilFunction, stencilReference, alphaFunction
    and alphaReference but differ in drawSelf are equal for operator== and
    not different for operator!=. *)
Theorem equality_ignores_drawSelf (left right : StencilSettings.t) :
  stencilOperation left = stencilOperation right ->
  stencilFunction left = stencilFunction right ->
  stencilReference left = stencilReference right ->
  alphaFunction left = alphaFunction right ->
  alphaReference left = alphaReference right ->
  drawSelf left <> drawSelf right ->
  StencilSettings.eq left right = true /\ StencilSettings.neq left right = false.
Proof.
  intros Hop Hfn Href Hafn Haref _.
  assert (StencilSettings.eq left right = true) as Heq.
  { unfold StencilSettings.eq.
    rewrite !bool_decide_eq_true_2 by done.
    rewrite Href, Haref, !Z.eqb_refl. done. }
  split; [done|]. unfold neq. by rewrite Heq.
Qed.

(** StencilCreate against the same settings drawn on screen as well. *)
Lemma equality_ignores_drawSelf_witness :
  StencilSettings.eq
    (Build Replace Always 1 GreaterEqual 255 false)
    (Build Replace Always 1 GreaterEqual 255 true) = true
  /\ StencilSettings.neq
    (Build Replace Always 1 GreaterEqual 255 false)
    (Build Replace Always 1 GreaterEqual 255 true) = false.
Proof.
  apply (equality_ignores_drawSelf
           (Build Replace Always 1 GreaterEqual 255 false)
           (Build Replace Always 1 GreaterEqual 255 true));
    simpl; (reflexivity || discriminate).
Defined.

End StencilProperties.

(** ** BatchTarget: what a submission checks and records *)

Section SubmissionFacts.
Context {C : Collaborators}.
Implicit Types (s : BatchTarget) (vs : list Vertex) (rs : RenderStates).

(** The first submission of a cycle always passes; it records the texture,
    its handle and the stored type, and turns a declared view into a used
    one. The cached blend mode is left as it was. *)
Lemma checkOrRecord_first s ty rs :
  m_hasDrawnSomething s = false ->
  exists s1, checkOrRecord s ty rs = Done s1
    /\ m_hasDrawnSomething s1 = true
    /\ m_cachedPrimitiveType s1 = ty
    /\ m_cachedTexture s1 = texture rs
    /\ lastTextureId (m_cache s1) = textureHandle rs
    /\ lastBlendMode (m_cache s1) = lastBlendMode (m_cache s)
    /\ viewChanged (m_cache s1) = false
    /\ m_viewWasUsed s1 = viewChanged (m_cache s) || m_viewWasUsed s
    /\ m_view s1 = m_view s.
Proof.
  intros Hfirst. unfold checkOrRecord. rewrite Hfirst.
  eexists. split; [reflexivity|].
  destruct s as [v [vc tid bm] hd vu ct pt va]; simpl in *.
  by destruct vc.
Qed.

(** A later submission returns the state unchanged, or fails. *)
Lemma checkOrRecord_later s ty rs s1 :
  m_hasDrawnSomething s = true ->
  checkOrRecord s ty rs = Done s1 ->
  s1 = s
  /\ viewChanged (m_cache s) = false
  /\ m_cachedPrimitiveType s = ty
  /\ textureHandle rs = lastTextureId (m_cache s)
  /\ lastBlendMode (m_cache s) = blendMode rs.
Proof.
  intros Hlater. unfold checkOrRecord, assert. rewrite Hlater.
  destruct (viewChanged (m_cache s)); [discriminate|]. cbn.
  destruct (bool_decide (m_cachedPrimitiveType s = ty)) eqn:E1; cbn; [|discriminate].
  destruct (textureHandle rs =? lastTextureId (m_cache s))%Z eqn:E2; cbn; [|discriminate].
  destruct (bool_decide (lastBlendMode (m_cache s) = blendMode rs)) eqn:E3;
    cbn; [|discriminate].
  intros [= <-]. apply bool_decide_eq_true in E1, E3. apply Z.eqb_eq in E2. done.
Qed.

(** A later submission that agrees with the cache passes. *)
Lemma checkOrRecord_agree s ty rs :
  m_hasDrawnSomething s = true ->
  viewChanged (m_cache s) = false ->
  m_cachedPrimitiveType s = ty ->
  textureHandle rs = lastTextureId (m_cache s) ->
  lastBlendMode (m_cache s) = blendMode rs ->
  checkOrRecord s ty rs = Done s.
Proof.
  intros Hlater Hview Hty Htex Hblend. unfold checkOrRecord, assert.
  rewrite Hlater, Hview. cbn.
  rewrite (bool_decide_eq_true_2 _ Hty). cbn.
  rewrite (proj2 (Z.eqb_eq _ _) Htex). cbn.
  by rewrite (bool_decide_eq_true_2 _ Hblend).
Qed.

(** No submission ever writes the cached blend mode. *)
Lemma checkOrRecord_lastBlendMode s ty rs s1 :
  checkOrRecord s ty rs = Done s1 ->
  lastBlendMode (m_cache s1) = lastBlendMode (m_cache s).
Proof.
  destruct (m_hasDrawnSomething s) eqn:Hd; intros Hcheck.
  - by destruct (checkOrRecord_later s ty rs s1 Hd Hcheck) as [-> _].
  - destruct (checkOrRecord_first s ty rs Hd) as (s1' & Heq & H).
    rewrite Heq in Hcheck. injection Hcheck as <-. tauto.
Qed.

Lemma draw_lastBlendMode s vs ty rs s' :
  draw s vs ty rs = Done s' ->
  lastBlendMode (m_cache s') = lastBlendMode (m_cache s).
Proof.
  intros Hdraw. destruct (draw_Done_inv _ _ _ _ _ Hdraw) as (s1 & a & Hcheck & ->).
  apply (checkOrRecord_lastBlendMode _ _ _ _ Hcheck).
Qed.

(** Within a cycle, a submission whose texture handle differs from the
    committed one stops at an assertion. *)
Lemma draw_other_texture s vs ty rs :
  m_hasDrawnSomething s = true ->
  textureHandle rs <> lastTextureId (m_cache s) ->
  exists c, draw s vs ty rs = AssertionFailure c.
Proof.
  intros Hlater Htex. unfold draw, checkOrRecord, assert. rewrite Hlater.
  destruct (viewChanged (m_cache s)); [by eexists|]. cbn.
  destruct (bool_decide (m_cachedPrimitiveType s = _)); cbn; [|by eexists].
  destruct (Z.eqb_spec (textureHandle rs) (lastTextureId (m_cache s))); [done|].
  by eexists.
Qed.

(** Within a cycle, a submission whose blend mode differs from the cached
    one stops at an assertion, whatever the first submission used. *)
Lemma draw_other_blendMode s vs ty rs :
  m_hasDrawnSomething s = true ->
  lastBlendMode (m_cache s) <> blendMode rs ->
  exists c, draw s vs ty rs = AssertionFailure c.
Proof.
  intros Hlater Hblend. unfold draw, checkOrRecord, assert. rewrite Hlater.
  destruct (viewChanged (m_cache s)); [by eexists|]. cbn.
  destruct (bool_decide (m_cachedPrimitiveType s = _)); cbn; [|by eexists].
  destruct (textureHandle rs =? lastTextureId (m_cache s))%Z; cbn; [|by eexists].
  rewrite (bool_decide_eq_false_2 _ Hblend). by eexists.
Qed.

(** A submission that returns leaves the cycle begun. *)
Lemma draw_hasDrawnSomething s vs ty rs s' :
  draw s vs ty rs = Done s' -> m_hasDrawnSomething s' = true.
Proof.
  intros Hdraw. destruct (draw_Done_inv _ _ _ _ _ Hdraw) as (s1 & a & Hcheck & ->).
  cbn. destruct (m_hasDrawnSomething s) eqn:Hd.
  - by destruct (checkOrRecord_later s _ rs s1 Hd Hcheck) as [-> _].
  - destruct (checkOrRecord_first s (decomposedType ty) rs Hd) as (s1' & Heq & H).
    rewrite Heq in Hcheck. injection Hcheck as <-. tauto.
Qed.

(** A first submission with a blend mode other than the cached one is
    accepted, and every later submission with that same blend mode stops at
    an assertion. *)
Lemma repeated_blendMode_conflicts s vs ty rs s1 vs' ty' rs' :
  lastBlendMode (m_cache s) <> blendMode rs' ->
  draw s vs ty rs = Done s1 ->
  exists c, draw s1 vs' ty' rs' = AssertionFailure c.
Proof.
  intros Hblend Hdraw. apply draw_other_blendMode.
  - by apply (draw_hasDrawnSomething s vs ty rs).
  - by rewrite (draw_lastBlendMode s vs ty rs s1 Hdraw).
Qed.

(** A line strip of N >= 1 vertices stores 2N - 1 vertices. *)
Lemma line_strip_stores_one_more s vs rs s1 :
  1 <= length vs ->
  fitsSizeT (length (m_vertexArray s) + 3 * length vs) ->
  checkOrRecord s Lines rs = Done s1 ->
  exists stored,
    draw s vs LinesStrip rs = Done (set_vertexArray (m_vertexArray s ++ stored) s1)
    /\ length stored = 2 * length vs - 1.
Proof.
  intros Hlen Hfit Hcheck.
  exists (storedBy LinesStrip (map (transformVertex rs) vs)). split.
  - by apply draw_stores.
  - destruct vs as [|v vs]; [simpl in Hlen; lia|].
    cbn [storedBy map length].
    rewrite length_flattenPairs.
    change (transformVertex rs v :: map (transformVertex rs) vs)
      with (map (transformVertex rs) (v :: vs)).
    rewrite length_stripSegments, length_map. cbn [length]. lia.
Qed.

End SubmissionFacts.

(** ** BatchTarget: replay and clear *)

Section ReplayFacts.
Context {C : Collaborators}.
Implicit Types (s : BatchTarget) (t : Surface) (rs : RenderStates).

(** The view of the target after a replay. *)
Lemma drawTo_view s t rs :
  surface_view (drawTo s t rs)
    = if m_viewWasUsed s then surface_view t else surface_defaultView t.
Proof. unfold drawTo. by destruct (m_viewWasUsed s). Qed.

(** With a view in use, the replay gives the target its view back. *)
Lemma drawTo_restores_used_view s t rs :
  m_viewWasUsed s = true -> surface_view (drawTo s t rs) = surface_view t.
Proof. intros Hused. by rewrite drawTo_view, Hused. Qed.

(** The one draw call of a replay. *)
Lemma drawTo_calls s t rs :
  surface_calls (drawTo s t rs)
    = surface_calls t ++
      [mkDrawCall (if m_viewWasUsed s then getView s else surface_defaultView t)
                  (m_vertexArray s) (size (m_vertexArray s))
                  (m_cachedPrimitiveType s) (overlay s rs)].
Proof. unfold drawTo. by destruct (m_viewWasUsed s). Qed.

End ReplayFacts.

(** ** BatchTarget: properties that hold for every state *)

Section BatchTargetProperties.
Context {C : Collaborators}.
Implicit Types (s : BatchTarget) (vs : list Vertex) (rs : RenderStates).

Lemma stripTriangles_elem {A : Type} (l : list A) (v : A) :
  v ∈ flattenTriples (stripTriangles l) -> v ∈ l.
Proof.
  induction l as [|a [|b [|c l]] IH]; [by (cbn; intros ?%elem_of_nil)..|].
  change (stripTriangles (a :: b :: c :: l))
    with ((a, b, c) :: stripTriangles (b :: c :: l)).
  cbn [flattenTriples flat_map fst snd app]. fold (flattenTriples (stripTriangles (b :: c :: l))).
  rewrite !elem_of_cons. intros [->|[->|[->|Hin]]]; [tauto..|].
  apply IH in Hin. rewrite !elem_of_cons in Hin. tauto.
Qed.

Lemma aligned_not_straddled (boundary k : nat) :
  boundary `mod` 3 = 0 -> ~ straddles boundary k.
Proof.
  intros Hmod [Hlo Hhi].
  pose proof (Nat.div_mod_eq boundary 3) as Hdiv. lia.
Qed.

(** C6. A TriangleFan submission of N >= 3 vertices stores 3(N-2)
    vertices after those already there; read three at a time they are the
    triangles (v0,v1,v2), (v0,v2,v3), ..., (v0,v_{N-2},v_{N-1}) of the
    transformed input, so each of them has the transformed first input
    vertex as its first vertex. *)
Theorem fan_submission_stores_fan_triangles s vs rs s1 :
  3 <= length vs ->
  fitsSizeT (length (m_vertexArray s) + 3 * length vs) ->
  checkOrRecord s Triangles rs = Done s1 ->
  let input := map (transformVertex rs) vs in
  let stored := flattenTriples (fanTriangles input) in
  draw s vs TrianglesFan rs = Done (set_vertexArray (m_vertexArray s ++ stored) s1)
  /\ length stored = 3 * (length vs - 2)
  /\ length (inTriples stored) = length vs - 2
  /\ forall k v0 a b,
       input !! 0 = Some v0 -> input !! (k + 1) = Some a -> input !! (k + 2) = Some b ->
       inTriples stored !! k = Some (v0, a, b).
Proof.
  intros Hlen Hfit Hcheck input stored.
  assert (Hin : length input = length vs) by apply length_map.
  repeat split.
  - rewrite (draw_stores s vs TrianglesFan rs s1 Hfit Hcheck).
    cbn [storedBy]. unfold storedTriangles. fold input.
    destruct (decide _) as [?|_]; [lia|]. reflexivity.
  - unfold stored. rewrite length_flattenTriples, length_fanTriangles. lia.
  - unfold stored. rewrite inTriples_flatten, length_fanTriangles. lia.
  - intros k v0 a b H0 Ha Hb. unfold stored. rewrite inTriples_flatten.
    by apply fanTriangles_lookup.
Qed.

(** C7, amended. For two consecutive TriangleStrip submissions into one
    cycle, what the second call stores is built from its own transformed
    vertices only; and when the vertices stored before the second call are a
    whole number of triangles (a multiple of three, as after a first strip
    of at least three vertices into an empty or aligned stream), no
    triangle of the resulting stream has vertices of both calls: the
    triangles of the stream are those stored before, then those of the
    second call. *)
Theorem strip_submissions_share_no_triangle s vs1 rs1 s1 vs2 rs2 s2 :
  fitsSizeT (length (m_vertexArray s) + 3 * length vs1) ->
  fitsSizeT (length (m_vertexArray s1) + 3 * length vs2) ->
  draw s vs1 TrianglesStrip rs1 = Done s1 ->
  draw s1 vs2 TrianglesStrip rs2 = Done s2 ->
  let first := storedTriangles stripTriangles (map (transformVertex rs1) vs1) in
  let second := storedTriangles stripTriangles (map (transformVertex rs2) vs2) in
  m_vertexArray s1 = m_vertexArray s ++ first
  /\ m_vertexArray s2 = m_vertexArray s1 ++ second
  /\ (forall v, v ∈ second -> v ∈ map (transformVertex rs2) vs2)
  /\ (length (m_vertexArray s1) `mod` 3 = 0 ->
        (forall k, 3 * k + 2 < length (m_vertexArray s2) ->
                   ~ straddles (length (m_vertexArray s1)) k)
        /\ inTriples (m_vertexArray s2)
           = inTriples (m_vertexArray s1) ++ inTriples second)
  /\ (length (m_vertexArray s) `mod` 3 = 0 -> 3 <= length vs1 ->
        length (m_vertexArray s1) `mod` 3 = 0).
Proof.
  intros Hfit1 Hfit2 Hdraw1 Hdraw2 first second.
  assert (Hs1 : m_vertexArray s1 = m_vertexArray s ++ first).
  { destruct (draw_Done_inv _ _ _ _ _ Hdraw1) as (c1 & a1 & Hcheck1 & ->).
    rewrite (draw_stores s vs1 TrianglesStrip rs1 c1 Hfit1 Hcheck1) in Hdraw1.
    by injection Hdraw1 as <-. }
  assert (Hs2 : m_vertexArray s2 = m_vertexArray s1 ++ second).
  { destruct (draw_Done_inv _ _ _ _ _ Hdraw2) as (c2 & a2 & Hcheck2 & ->).
    rewrite (draw_stores s1 vs2 TrianglesStrip rs2 c2 Hfit2 Hcheck2) in Hdraw2.
    by injection Hdraw2 as <-. }
  split; [done|]. split; [done|]. split; [|split].
  - intros v. unfold second, storedTriangles.
    destruct (decide _); [done|]. apply stripTriangles_elem.
  - intros Haligned. split.
    + intros k _. by apply aligned_not_straddled.
    + rewrite Hs2. by apply inTriples_app.
  - intros Haligned Hlen. rewrite Hs1, length_app.
    unfold first, storedTriangles. rewrite length_map.
    destruct (decide _) as [?|_]; [lia|].
    rewrite length_flattenTriples, length_stripTriangles, length_map.
    rewrite (Nat.mul_comm 3), Nat.Div0.mod_add. done.
Qed.

(** C10. clear resets m_hasDrawnSomething, nulls the cached texture and
    empties the vertex array, and leaves the view state alone: viewChanged,
    m_viewWasUsed and the view itself are as before. So the first
    submission after clear marks the view as used when one was declared or
    used before, the replay after clear draws under that view when one was
    used before, and clearView is what resets both flags. *)
Theorem clear_keeps_view_state s :
  m_hasDrawnSomething (clear s) = false
  /\ m_cachedTexture (clear s) = None
  /\ m_vertexArray (clear s) = []
  /\ viewChanged (m_cache (clear s)) = viewChanged (m_cache s)
  /\ m_viewWasUsed (clear s) = m_viewWasUsed s
  /\ getView (clear s) = getView s
  /\ (forall vs ty rs, fitsSizeT (3 * length vs) ->
        exists s', draw (clear s) vs ty rs = Done s'
          /\ m_viewWasUsed s' = viewChanged (m_cache s) || m_viewWasUsed s)
  /\ (forall (t : Surface) rs,
        exists d, surface_calls (drawTo (clear s) t rs) = surface_calls t ++ [d]
          /\ call_view d = if m_viewWasUsed s then getView s else surface_defaultView t)
  /\ m_viewWasUsed (clearView (clear s)) = false
  /\ viewChanged (m_cache (clearView (clear s))) = false
  /\ (forall vs ty rs, fitsSizeT (3 * length vs) ->
        exists s', draw (clearView (clear s)) vs ty rs = Done s'
          /\ m_viewWasUsed s' = false).
Proof.
  repeat split.
  - intros vs ty rs Hfit.
    destruct (checkOrRecord_first (clear s) (decomposedType ty) rs eq_refl)
      as (s1 & Hcheck & H).
    eexists. split; [by apply draw_stores|]. simpl. apply H.
  - intros t rs. eexists. split; [apply drawTo_calls|]. reflexivity.
  - intros vs ty rs Hfit.
    destruct (checkOrRecord_first (clearView (clear s)) (decomposedType ty) rs eq_refl)
      as (s1 & Hcheck & H).
    eexists. split; [by apply draw_stores|]. simpl. apply H.
Qed.

End BatchTargetProperties.

(** ** BatchTarget on concrete submissions *)

Section Scenarios.
#[local] Existing Instance Demo.collaborators.
Import Demo.

(** The scenario of the design document: the fan c0, c1, c2, c3 with the
    identity transform and no texture stores the six vertices of
    (c0,c1,c2) and (c0,c2,c3). *)
Lemma fan_of_four_corners :
  3 <= length [c0; c1; c2; c3]
  /\ fitsSizeT (length (m_vertexArray fresh) + 3 * length [c0; c1; c2; c3])
  /\ checkOrRecord fresh Triangles plain = Done (committed Triangles [])
  /\ draw fresh [c0; c1; c2; c3] TrianglesFan plain
     = Done (committed Triangles [c0; c1; c2; c0; c2; c3])
  /\ inTriples [c0; c1; c2; c0; c2; c3] = [(c0, c1, c2); (c0, c2, c3)].
Proof.
  assert (H1 : 3 <= length [c0; c1; c2; c3]) by (simpl; lia).
  assert (H2 : fitsSizeT (length (m_vertexArray fresh) + 3 * length [c0; c1; c2; c3]))
    by reflexivity.
  assert (H3 : checkOrRecord fresh Triangles plain = Done (committed Triangles []))
    by reflexivity.
  refine (conj H1 (conj H2 (conj H3 (conj _ eq_refl)))).
  exact (proj1 (fan_submission_stores_fan_triangles
                  fresh [c0; c1; c2; c3] plain (committed Triangles []) H1 H2 H3)).
Defined.

(** Two strips of three and four vertices into an empty cycle: the stream
    splits after the first triangle. *)
Lemma two_strips_witness :
  draw fresh [c0; c1; c2] TrianglesStrip plain
    = Done (committed Triangles [c0; c1; c2])
  /\ draw (committed Triangles [c0; c1; c2]) [c1; c2; c3; c4] TrianglesStrip plain
    = Done (committed Triangles [c0; c1; c2; c1; c2; c3; c2; c3; c4])
  /\ (forall k, 3 * k + 2 < 9 -> ~ straddles 3 k)
  /\ inTriples [c0; c1; c2; c1; c2; c3; c2; c3; c4]
     = [(c0, c1, c2)] ++ [(c1, c2, c3); (c2, c3, c4)].
Proof.
  assert (H1 : fitsSizeT (length (m_vertexArray fresh) + 3 * length [c0; c1; c2]))
    by reflexivity.
  assert (H2 : fitsSizeT (length (m_vertexArray (committed Triangles [c0; c1; c2]))
                          + 3 * length [c1; c2; c3; c4]))
    by reflexivity.
  assert (H3 : draw fresh [c0; c1; c2] TrianglesStrip plain
               = Done (committed Triangles [c0; c1; c2])) by reflexivity.
  assert (H4 : draw (committed Triangles [c0; c1; c2]) [c1; c2; c3; c4]
                    TrianglesStrip plain
               = Done (committed Triangles [c0; c1; c2; c1; c2; c3; c2; c3; c4]))
    by reflexivity.
  pose proof (strip_submissions_share_no_triangle
                fresh [c0; c1; c2] plain (committed Triangles [c0; c1; c2])
                [c1; c2; c3; c4] plain
                (committed Triangles [c0; c1; c2; c1; c2; c3; c2; c3; c4])
                H1 H2 H3 H4) as (_ & _ & _ & Haligned & _).
  destruct (Haligned eq_refl) as [Hno Htri].
  exact (conj H3 (conj H4 (conj Hno Htri))).
Defined.

(** C7, as stated, fails: a strip of two vertices followed by a strip of
    three stores c0, c1, c2, c3, c4, whose first triangle (c0,c1,c2) has
    c0 and c1 from the first call and c2 from the second. *)
Lemma short_strip_shares_triangle :
  draw fresh [c0; c1] TrianglesStrip plain = Done (committed Triangles [c0; c1])
  /\ draw (committed Triangles [c0; c1]) [c2; c3; c4] TrianglesStrip plain
     = Done (committed Triangles [c0; c1; c2; c3; c4])
  /\ inTriples [c0; c1; c2; c3; c4] = [(c0, c1, c2)]
  /\ ~ (forall k, 3 * k + 2 < length [c0; c1; c2; c3; c4] ->
                  ~ straddles (length [c0; c1]) k).
Proof.
  repeat split.
  intros Hno. apply (Hno 0); [simpl; lia|]. unfold straddles. simpl. lia.
Qed.

(** A cycle that used a view and then had another declared: after clear,
    the flags are still set, the next first submission marks the view as
    used, and the next replay draws under the view of the BatchTarget. *)
Lemma clear_keeps_view_state_witness :
  viewChanged (m_cache (clear usedView)) = true
  /\ m_viewWasUsed (clear usedView) = true
  /\ fitsSizeT (3 * length [c0; c1; c2])
  /\ (exists s', draw (clear usedView) [c0; c1; c2] Triangles plain = Done s'
                 /\ m_viewWasUsed s' = true)
  /\ (exists d, surface_calls (drawTo (clear usedView) window plain) = [d]
                /\ call_view d = 6%Z).
Proof.
  pose proof (clear_keeps_view_state usedView)
    as (_ & _ & _ & Hchanged & Hused & _ & Hdraw & Hreplay & _).
  assert (Hfit : fitsSizeT (3 * length [c0; c1; c2])) by reflexivity.
  exact (conj Hchanged (conj Hused (conj Hfit
           (conj (Hdraw [c0; c1; c2] Triangles plain Hfit) (Hreplay window plain))))).
Defined.

(** C1 (code defect). A line strip of two vertices should store the one
    segment (c0,c1), two vertices. The loop repeats the last stored vertex
    from the second input vertex on (i > 0), so it stores c0, c0, c1: three
    vertices, whose only pair is the empty segment (c0,c0). *)
Theorem line_strip_of_two_stores_three :
  draw fresh [c0; c1] LinesStrip plain = Done (committed Lines [c0; c0; c1])
  /\ length [c0; c0; c1] = 3
  /\ inPairs [c0; c0; c1] = [(c0, c0)]
  /\ stripSegments [c0; c1] = [(c0, c1)].
Proof. repeat split. Qed.

(** C2 (code defect). A replay of a cycle that used no view sets the
    default view on the target and does not put the saved view back: a
    window showing view 7 is left showing its default view 1. *)
Theorem replay_without_view_leaves_default_view :
  m_viewWasUsed (committed Triangles [c0; c1; c2]) = false
  /\ target_getView window = 7%Z
  /\ target_getView (drawTo (committed Triangles [c0; c1; c2]) window plain) = 1%Z.
Proof. repeat split. Qed.

(** C3 (code defect). The first submission records the texture, its handle
    and the type, but not the blend mode: after a first submission with
    additive blending the cache still holds alpha blending. The same
    submission repeated stops at the blend-mode assertion, one with alpha
    blending is accepted, and the replay overlays alpha blending. *)
Theorem first_submission_does_not_record_blend_mode :
  blendMode additive = BlendAdd
  /\ draw fresh [c0; c1; c2] Triangles additive
     = Done (committed Triangles [c0; c1; c2])
  /\ lastBlendMode (m_cache (committed Triangles [c0; c1; c2])) = BlendAlpha
  /\ draw (committed Triangles [c0; c1; c2]) [c1; c2; c3] Triangles additive
     = AssertionFailure BlendModeHasChanged
  /\ draw (committed Triangles [c0; c1; c2]) [c1; c2; c3] Triangles plain
     = Done (committed Triangles [c0; c1; c2; c1; c2; c3])
  /\ blendMode (overlay (committed Triangles [c0; c1; c2]) additive) = BlendAlpha.
Proof. repeat split. Qed.

(** C4 (code defect). A replay of an empty cycle issues one draw call of no
    vertices and fails no assertion, but it leaves the target on its
    default view: the window showing view 7 shows view 1 afterwards. *)
Theorem empty_cycle_replay_changes_view :
  m_hasDrawnSomething fresh = false
  /\ m_vertexArray fresh = []
  /\ surface_view window = 7%Z
  /\ drawTo fresh window plain
     = mkSurface 1%Z 1%Z [mkDrawCall 1%Z [] 0%Z Points plain].
Proof. repeat split. Qed.

(** C5 (code defect). Two submissions with the same texture handle (none),
    the same type and the same blend mode, additive: the second one stops at
    the blend-mode assertion, because the first did not record its blend
    mode. A second submission with another texture handle does stop at the
    texture assertion. *)
Theorem same_state_submissions_conflict :
  (s ← draw fresh [c0; c1; c2] Triangles additive;
   draw s [c1; c2; c3] Triangles additive)
    = AssertionFailure BlendModeHasChanged
  /\ (s ← draw fresh [c0; c1; c2] Triangles plain;
      draw s [c1; c2; c3] Triangles (statesWith BlendAlpha (Some 4%Z)))
    = AssertionFailure TextureHasChanged.
Proof. repeat split. Qed.

End Scenarios.

(** ** What a call stores, for every declared type *)

Section StoredFacts.
Context {A : Type}.
Implicit Types (l : list A).

Lemma stripSegments_elem l (v : A) :
  v ∈ flattenPairs (stripSegments l) -> v ∈ l.
Proof.
  induction l as [|a [|b l] IH]; [by (cbn; intros ?%elem_of_nil)..|].
  change (stripSegments (a :: b :: l)) with ((a, b) :: stripSegments (b :: l)).
  cbn [flattenPairs flat_map fst snd app]. fold (flattenPairs (stripSegments (b :: l))).
  rewrite !elem_of_cons. intros [->|[->|Hin]]; [tauto..|].
  apply IH in Hin. rewrite !elem_of_cons in Hin. tauto.
Qed.

Lemma fanAround_elem (apex : A) l (v : A) :
  v ∈ flattenTriples (fanAround apex l) -> v = apex \/ v ∈ l.
Proof.
  induction l as [|a [|b l] IH]; [by (cbn; intros ?%elem_of_nil)..|].
  change (fanAround apex (a :: b :: l)) with ((apex, a, b) :: fanAround apex (b :: l)).
  cbn [flattenTriples flat_map fst snd app].
  fold (flattenTriples (fanAround apex (b :: l))).
  rewrite !elem_of_cons. intros [->|[->|[->|Hin]]]; [tauto..|].
  apply IH in Hin. rewrite !elem_of_cons in Hin. tauto.
Qed.

Lemma storedBy_elem ty l (v : A) : v ∈ storedBy ty l -> v ∈ l.
Proof.
  destruct ty; cbn [storedBy]; try done.
  - destruct l as [|a l]; [done|].
    rewrite elem_of_cons. intros [->|Hin]; [by left|].
    by apply stripSegments_elem.
  - unfold storedTriangles. destruct (decide _); [done|]. apply stripTriangles_elem.
  - unfold storedTriangles. destruct (decide _); [done|].
    destruct l as [|apex l]; [by (cbn; intros ?%elem_of_nil)|].
    cbn [fanTriangles]. intros [->|Hin]%fanAround_elem; [by left|by right].
Qed.

Lemma length_storedBy ty l :
  length l <= length (storedBy ty l) <= 3 * length l.
Proof.
  destruct ty; cbn [storedBy]; try lia.
  - destruct l as [|a l]; [simpl; lia|].
    cbn [length]. rewrite length_flattenPairs, length_stripSegments. cbn [length]. lia.
  - unfold storedTriangles. destruct (decide _); [lia|].
    rewrite length_flattenTriples, length_stripTriangles. lia.
  - unfold storedTriangles. destruct (decide _); [lia|].
    rewrite length_flattenTriples, length_fanTriangles. lia.
Qed.

End StoredFacts.

(** ** BatchTarget: more on what draw stores *)

Section StorageProperties.
Context {C : Collaborators}.
Implicit Types (s : BatchTarget) (vs : list Vertex) (rs : RenderStates).

Lemma checkOrRecord_in_range s ty rs : checkOrRecord s ty rs <> OutOfRange.
Proof.
  unfold checkOrRecord, assert. destruct (m_hasDrawnSomething s); [|done].
  destruct (negb _); [|done]. cbn.
  destruct (bool_decide (m_cachedPrimitiveType s = ty)); [|done]. cbn.
  destruct (textureHandle rs =? lastTextureId (m_cache s))%Z; [|done]. cbn.
  by destruct (bool_decide (lastBlendMode (m_cache s) = blendMode rs)).
Qed.

(** X1. Whatever the state, the declared type and the input, draw never
    reads the vertex array outside its bounds: it returns or stops at an
    assertion, and the first call of a cycle always returns. *)
Theorem draw_never_reads_out_of_range s vs ty rs :
  fitsSizeT (length (m_vertexArray s) + 3 * length vs) ->
  draw s vs ty rs <> OutOfRange
  /\ (m_hasDrawnSomething s = false -> exists s', draw s vs ty rs = Done s').
Proof.
  intros Hfit. split.
  - destruct (checkOrRecord s (decomposedType ty) rs) as [s1|c|] eqn:Hcheck.
    + by rewrite (draw_stores s vs ty rs s1 Hfit Hcheck).
    + unfold draw. by rewrite Hcheck.
    + by destruct (checkOrRecord_in_range s (decomposedType ty) rs).
  - intros Hfirst.
    destruct (checkOrRecord_first s (decomposedType ty) rs Hfirst) as (s1 & Hcheck & _).
    eexists. by apply draw_stores.
Qed.

(** X2. An accepted call only appends: the vertices already stored stay in
    front, between N and 3N vertices follow for N input vertices, and each
    of them is an input vertex with its position transformed and its colour
    and texture coordinates unchanged. *)
Theorem draw_appends_transformed_inputs s vs ty rs s' :
  fitsSizeT (length (m_vertexArray s) + 3 * length vs) ->
  draw s vs ty rs = Done s' ->
  exists stored,
    m_vertexArray s' = m_vertexArray s ++ stored
    /\ length vs <= length stored <= 3 * length vs
    /\ forall v, v ∈ stored ->
         exists u, u ∈ vs
           /\ position v = transformPoint (transform rs) (position u)
           /\ color v = color u
           /\ texCoords v = texCoords u.
Proof.
  intros Hfit Hdraw.
  destruct (draw_Done_inv _ _ _ _ _ Hdraw) as (s1 & a & Hcheck & ->).
  rewrite (draw_stores s vs ty rs s1 Hfit Hcheck) in Hdraw.
  injection Hdraw as <-.
  exists (storedBy ty (map (transformVertex rs) vs)). split; [done|]. split.
  - rewrite <- (length_map (transformVertex rs) vs). apply length_storedBy.
  - intros v Hv%storedBy_elem. apply list_elem_of_fmap in Hv as (u & -> & Hu).
    by exists u.
Qed.

(** X3. Points, Lines and Triangles are stored one vertex per input vertex,
    in input order, whatever is already stored. *)
Theorem simple_types_store_input_once s vs ty rs s1 :
  composite ty = false ->
  checkOrRecord s ty rs = Done s1 ->
  draw s vs ty rs
    = Done (set_vertexArray (m_vertexArray s ++ map (transformVertex rs) vs) s1).
Proof.
  intros Hty Hcheck. unfold draw.
  replace (decomposedType ty) with ty by (by destruct ty).
  rewrite Hcheck. cbn [mbind outcome_bind].
  rewrite (checkOrRecord_vertexArray _ _ _ _ Hcheck).
  by destruct (drawLoop_simple ty rs vs 0 (m_vertexArray s) (to_size_t (-1)) Hty)
    as [f' ->].
Qed.

(** X4. A TrianglesStrip call of N >= 3 vertices appends 3(N-2) vertices;
    read three at a time, triangle k is (v_k, v_{k+1}, v_{k+2}) of the
    transformed input. *)
Theorem strip_submission_stores_strip_triangles s vs rs s1 :
  3 <= length vs ->
  fitsSizeT (length (m_vertexArray s) + 3 * length vs) ->
  checkOrRecord s Triangles rs = Done s1 ->
  let input := map (transformVertex rs) vs in
  let stored := flattenTriples (stripTriangles input) in
  draw s vs TrianglesStrip rs = Done (set_vertexArray (m_vertexArray s ++ stored) s1)
  /\ length stored = 3 * (length vs - 2)
  /\ length (inTriples stored) = length vs - 2
  /\ forall k a b c,
       input !! k = Some a -> input !! (k + 1) = Some b -> input !! (k + 2) = Some c ->
       inTriples stored !! k = Some (a, b, c).
Proof.
  intros Hlen Hfit Hcheck input stored.
  assert (Hin : length input = length vs) by apply length_map.
  repeat split.
  - rewrite (draw_stores s vs TrianglesStrip rs s1 Hfit Hcheck).
    cbn [storedBy]. unfold storedTriangles. fold input.
    destruct (decide _) as [?|_]; [lia|]. reflexivity.
  - unfold stored. rewrite length_flattenTriples, length_stripTriangles. lia.
  - unfold stored. rewrite inTriples_flatten, length_stripTriangles. lia.
  - intros k a b c Ha Hb Hc. unfold stored. rewrite inTriples_flatten.
    by apply stripTriangles_lookup.
Qed.

(** X5. A strip or fan too short for one primitive is stored as it is: a
    LinesStrip of at most one vertex, a TrianglesStrip or TrianglesFan of at
    most two. *)
Theorem short_composite_stored_as_is s vs ty rs s1 :
  (ty = LinesStrip /\ length vs < 2)
  \/ ((ty = TrianglesStrip \/ ty = TrianglesFan) /\ length vs < 3) ->
  fitsSizeT (length (m_vertexArray s) + 3 * length vs) ->
  checkOrRecord s (decomposedType ty) rs = Done s1 ->
  draw s vs ty rs
    = Done (set_vertexArray (m_vertexArray s ++ map (transformVertex rs) vs) s1).
Proof.
  intros Hshort Hfit Hcheck.
  rewrite (draw_stores s vs ty rs s1 Hfit Hcheck). do 2 f_equal.
  destruct Hshort as [[-> Hlen]|[[-> | ->] Hlen]]; cbn [storedBy].
  - destruct vs as [|v [|w vs]]; [done..|]. simpl in Hlen. lia.
  - unfold storedTriangles. rewrite length_map. by destruct (decide _).
  - unfold storedTriangles. rewrite length_map. by destruct (decide _).
Qed.

End StorageProperties.

(** ** BatchTarget: the cycle *)

Section CycleProperties.
Context {C : Collaborators}.
Implicit Types (s : BatchTarget) (vs : list Vertex) (rs : RenderStates).

(** X6. Once a cycle has begun, a call is accepted exactly when no view was
    declared since, the stored type of its declared type is the committed
    one, its texture handle is the committed one and its blend mode is the
    cached one. Transform, shader and stencil settings play no part. *)
Theorem later_submission_accepted_iff s vs ty rs :
  m_hasDrawnSomething s = true ->
  fitsSizeT (length (m_vertexArray s) + 3 * length vs) ->
  (exists s', draw s vs ty rs = Done s')
  <-> viewChanged (m_cache s) = false
      /\ m_cachedPrimitiveType s = decomposedType ty
      /\ textureHandle rs = lastTextureId (m_cache s)
      /\ lastBlendMode (m_cache s) = blendMode rs.
Proof.
  intros Hlater Hfit. split.
  - intros [s' Hdraw].
    destruct (draw_Done_inv _ _ _ _ _ Hdraw) as (s1 & a & Hcheck & _).
    by destruct (checkOrRecord_later s _ rs s1 Hlater Hcheck) as (_ & ? & ? & ? & ?).
  - intros (Hview & Hty & Htex & Hblend).
    eexists. apply draw_stores; [done|]. by apply checkOrRecord_agree.
Qed.

(** X7. Once a cycle has begun, an accepted call changes the vertex array
    and nothing else: the committed texture, its handle, the stored type,
    the cached blend mode and the view state are as before. *)
Theorem later_submission_changes_only_vertices s vs ty rs s' :
  m_hasDrawnSomething s = true ->
  draw s vs ty rs = Done s' ->
  s' = set_vertexArray (m_vertexArray s') s
  /\ m_cachedTexture s' = m_cachedTexture s
  /\ m_cachedPrimitiveType s' = m_cachedPrimitiveType s
  /\ m_cache s' = m_cache s
  /\ m_viewWasUsed s' = m_viewWasUsed s
  /\ m_view s' = m_view s.
Proof.
  intros Hlater Hdraw.
  destruct (draw_Done_inv _ _ _ _ _ Hdraw) as (s1 & a & Hcheck & ->).
  by destruct (checkOrRecord_later s _ rs s1 Hlater Hcheck) as (-> & _).
Qed.

(** X8. A view declared after the first call of a cycle makes every further
    call stop at the first assertion, whatever it submits. *)
Theorem view_declared_mid_cycle_conflicts s vs ty rs :
  m_hasDrawnSomething s = true ->
  viewChanged (m_cache s) = true ->
  draw s vs ty rs = AssertionFailure ViewHasChanged.
Proof.
  intros Hlater Hview. unfold draw, checkOrRecord, assert.
  by rewrite Hlater, Hview.
Qed.

(** X9. clearView is not checked against the cycle: called after the first
    call, it drops both the pending declaration and the view in use and
    keeps everything else, so the next agreeing call is accepted after the
    vertices already stored, and the replay draws under the default view of
    the target. *)
Theorem clearView_mid_cycle s vs ty rs :
  m_hasDrawnSomething s = true ->
  m_cachedPrimitiveType s = decomposedType ty ->
  textureHandle rs = lastTextureId (m_cache s) ->
  lastBlendMode (m_cache s) = blendMode rs ->
  fitsSizeT (length (m_vertexArray s) + 3 * length vs) ->
  draw (clearView s) vs ty rs
    = Done (set_vertexArray
              (m_vertexArray s ++ storedBy ty (map (transformVertex rs) vs))
              (clearView s))
  /\ forall (t : Surface) rs',
       surface_calls (drawTo (clearView s) t rs')
       = surface_calls t ++
         [mkDrawCall (surface_defaultView t) (m_vertexArray s)
                     (size (m_vertexArray s)) (m_cachedPrimitiveType s)
                     (overlay s rs')].
Proof.
  intros Hlater Hty Htex Hblend Hfit. split.
  - apply (draw_stores (clearView s)); [done|].
    by apply checkOrRecord_agree.
  - intros t rs'. by rewrite drawTo_calls.
Qed.

(** X10. A whole cycle of one call: after clear, any call is accepted,
    whatever the cycle before held; the replay then issues one draw call with
    the vertices of that call, their number, the stored type of the declared
    type and the texture of the call. The blend mode is the cached one, and
    the view is that of the BatchTarget when one was declared or in use,
    otherwise the default view of the target. *)
Theorem clear_draw_replay s vs ty rs (t : Surface) rs' :
  fitsSizeT (3 * length vs) ->
  let stored := storedBy ty (map (transformVertex rs) vs) in
  exists s',
    draw (clear s) vs ty rs = Done s'
    /\ m_vertexArray s' = stored
    /\ surface_calls (drawTo s' t rs')
       = surface_calls t ++
         [mkDrawCall
            (if viewChanged (m_cache s) || m_viewWasUsed s
             then getView s else surface_defaultView t)
            stored (Z.of_nat (length stored)) (decomposedType ty)
            (mkRenderStates (lastBlendMode (m_cache s)) (stencilSettings rs')
                            (transform rs') (texture rs) (shader rs'))].
Proof.
  intros Hfit stored.
  destruct (checkOrRecord_first (clear s) (decomposedType ty) rs eq_refl)
    as (s1 & Hcheck & _ & Hty & Htex & _ & Hblend & _ & Hused & Hview).
  eexists. split; [by apply draw_stores|]. split; [done|].
  rewrite drawTo_calls. cbn. unfold overlay, getView. cbn.
  rewrite Hty, Htex, Hblend, Hused, Hview. reflexivity.
Qed.

(** X11. The replay issues exactly one draw call, with the stored vertices,
    their number and the committed type; the texture and the blend mode of
    the states passed in are replaced, the transform, the shader and the
    stencil settings pass through, and the default view of the target is
    untouched. When a view is in use the call is made under that view and
    the target has its own view back afterwards. *)
Theorem replay_issues_one_call s (t : Surface) rs :
  surface_defaultView (drawTo s t rs) = surface_defaultView t
  /\ (exists d,
        surface_calls (drawTo s t rs) = surface_calls t ++ [d]
        /\ call_vertices d = m_vertexArray s
        /\ call_vertexCount d = Z.of_nat (length (m_vertexArray s))
        /\ call_type d = m_cachedPrimitiveType s
        /\ texture (call_states d) = m_cachedTexture s
        /\ blendMode (call_states d) = lastBlendMode (m_cache s)
        /\ transform (call_states d) = transform rs
        /\ shader (call_states d) = shader rs
        /\ stencilSettings (call_states d) = stencilSettings rs
        /\ (m_viewWasUsed s = true -> call_view d = getView s))
  /\ (m_viewWasUsed s = true -> surface_view (drawTo s t rs) = surface_view t).
Proof.
  split; [|split].
  - unfold drawTo. by destruct (m_viewWasUsed s).
  - eexists. split; [apply drawTo_calls|]. cbn. repeat split.
    by intros ->.
  - apply drawTo_restores_used_view.
Qed.

End CycleProperties.

(** ** BatchTarget: several calls in one cycle *)

Section SequenceProperties.
Context {C : Collaborators}.
Implicit Types (s : BatchTarget) (calls : list Submission).

Lemma inputCount_cons (x : Submission) calls :
  inputCount (x :: calls) = length (sub_vertices x) + inputCount calls.
Proof. reflexivity. Qed.

(** With the cycle begun and no view declared since, calls that agree with
    the committed type, the committed texture handle and the cached blend
    mode are all accepted. *)
Lemma drawAll_committed s calls :
  m_hasDrawnSomething s = true ->
  viewChanged (m_cache s) = false ->
  Forall (fun y => m_cachedPrimitiveType s = decomposedType (sub_type y)
                   /\ textureHandle (sub_states y) = lastTextureId (m_cache s)
                   /\ lastBlendMode (m_cache s) = blendMode (sub_states y)) calls ->
  fitsSizeT (length (m_vertexArray s) + 3 * inputCount calls) ->
  drawAll s calls
    = Done (set_vertexArray (m_vertexArray s ++ concat (map storedFor calls)) s).
Proof.
  intros Hlater Hview Hall. revert s Hlater Hview Hall.
  induction calls as [|x calls IH]; intros s Hlater Hview Hall Hfit.
  - cbn. rewrite app_nil_r. by destruct s.
  - apply Forall_cons in Hall as [(Hty & Htex & Hblend) Hall].
    rewrite inputCount_cons in Hfit.
    cbn [drawAll].
    rewrite (draw_stores s (sub_vertices x) (sub_type x) (sub_states x) s);
      [|unfold fitsSizeT in *; lia|by apply checkOrRecord_agree].
    cbn [mbind outcome_bind]. fold (storedFor x).
    rewrite IH; [|done|done|exact Hall|].
    + unfold set_vertexArray.
      cbn [map concat m_vertexArray m_view m_cache m_hasDrawnSomething
           m_viewWasUsed m_cachedTexture m_cachedPrimitiveType].
      by rewrite <- app_assoc.
    + pose proof (length_storedBy (sub_type x)
                    (map (transformVertex (sub_states x)) (sub_vertices x))) as Hle.
      rewrite length_map in Hle. fold (storedFor x) in Hle.
      unfold fitsSizeT in *. cbn [m_vertexArray set_vertexArray].
      rewrite length_app. lia.
Qed.

(** X12. From the start of a cycle, a first call followed by calls with the
    same stored type, the same texture handle and the cached blend mode are
    all accepted, however many they are, and the vertex array is what was
    there followed by what each call stores, in call order. The blend mode of
    the first call is not looked at. *)
Theorem agreeing_calls_all_accepted s (x : Submission) calls :
  m_hasDrawnSomething s = false ->
  Forall (fun y => decomposedType (sub_type y) = decomposedType (sub_type x)
                   /\ textureHandle (sub_states y) = textureHandle (sub_states x)
                   /\ blendMode (sub_states y) = lastBlendMode (m_cache s)) calls ->
  fitsSizeT (length (m_vertexArray s) + 3 * inputCount (x :: calls)) ->
  exists s',
    drawAll s (x :: calls) = Done s'
    /\ m_vertexArray s' = m_vertexArray s ++ concat (map storedFor (x :: calls)).
Proof.
  intros Hfirst Hall Hfit. rewrite inputCount_cons in Hfit.
  destruct (checkOrRecord_first s (decomposedType (sub_type x)) (sub_states x) Hfirst)
    as (s1 & Hcheck & Hd & Hty & _ & Htex & Hblend & Hview & _).
  pose proof (checkOrRecord_vertexArray _ _ _ _ Hcheck) as Harr.
  pose proof (length_storedBy (sub_type x)
                (map (transformVertex (sub_states x)) (sub_vertices x))) as Hle.
  rewrite length_map in Hle. fold (storedFor x) in Hle.
  cbn [drawAll].
  rewrite (draw_stores s (sub_vertices x) (sub_type x) (sub_states x) s1);
    [|unfold fitsSizeT in *; lia|done].
  cbn [mbind outcome_bind]. fold (storedFor x).
  rewrite drawAll_committed; [| done | done | |].
  - eexists. split; [reflexivity|]. cbn [m_vertexArray set_vertexArray map concat].
    by rewrite <- app_assoc.
  - cbn. rewrite Hty, Htex, Hblend.
    eapply Forall_impl; [exact Hall|]. cbn. intros y (? & ? & ?). by repeat split.
  - unfold fitsSizeT in *. cbn [m_vertexArray set_vertexArray].
    rewrite length_app. lia.
Qed.

(** X13. Whole triangles are kept: when the vertices stored are a multiple
    of three, a Triangles call of a multiple of three vertices, or a strip or
    fan of no or at least three vertices, leaves a multiple of three stored,
    and the triangles of the stream are those before followed by those of
    the call. *)
Theorem whole_triangles_kept s vs ty rs s' :
  fitsSizeT (length (m_vertexArray s) + 3 * length vs) ->
  draw s vs ty rs = Done s' ->
  length (m_vertexArray s) `mod` 3 = 0 ->
  (ty = Triangles /\ length vs `mod` 3 = 0)
  \/ ((ty = TrianglesStrip \/ ty = TrianglesFan) /\ (3 <= length vs \/ vs = [])) ->
  length (m_vertexArray s') `mod` 3 = 0
  /\ inTriples (m_vertexArray s')
     = inTriples (m_vertexArray s)
       ++ inTriples (storedBy ty (map (transformVertex rs) vs)).
Proof.
  intros Hfit Hdraw Haligned Hshape.
  destruct (draw_Done_inv _ _ _ _ _ Hdraw) as (s1 & a & Hcheck & ->).
  rewrite (draw_stores s vs ty rs s1 Hfit Hcheck) in Hdraw.
  injection Hdraw as <-. cbn [m_vertexArray set_vertexArray].
  split; [|by apply inTriples_app].
  rewrite length_app, Nat.Div0.add_mod, Haligned, Nat.add_0_l, Nat.Div0.mod_mod.
  destruct Hshape as [[-> Hlen]|[Hty [Hlen| ->]]].
  - cbn [storedBy]. by rewrite length_map.
  - assert (length (storedBy ty (map (transformVertex rs) vs)) = 3 * (length vs - 2))
      as ->.
    { destruct Hty as [-> | ->]; cbn [storedBy]; unfold storedTriangles;
        rewrite length_map; (destruct (decide _) as [?|_]; [lia|]);
        rewrite length_flattenTriples, ?length_stripTriangles, ?length_fanTriangles,
          length_map; reflexivity. }
    by rewrite Nat.mul_comm, Nat.Div0.mod_mul.
  - by destruct Hty as [-> | ->].
Qed.

End SequenceProperties.

(** ** StencilSettings: comparison and apply *)

Section StencilExtraProperties.
Import StencilSettings.
Context {F : Type} (over255 : Z -> F).

(** X14. operator== holds exactly when the two settings have the same
    stencil operation, stencil function, stencil reference, alpha function
    and alpha reference. *)
Theorem eq_iff_fields_agree (left right : StencilSettings.t) :
  StencilSettings.eq left right = true
  <-> stencilOperation left = stencilOperation right
      /\ stencilFunction left = stencilFunction right
      /\ stencilReference left = stencilReference right
      /\ alphaFunction left = alphaFunction right
      /\ alphaReference left = alphaReference right.
Proof.
  unfold StencilSettings.eq.
  rewrite !andb_true_iff, !bool_decide_eq_true, !Z.eqb_eq. tauto.
Qed.

Lemma eq_fields (left right : StencilSettings.t) :
  StencilSettings.eq left right = true ->
  stencilOperation left = stencilOperation right
  /\ stencilFunction left = stencilFunction right
  /\ stencilReference left = stencilReference right
  /\ alphaFunction left = alphaFunction right
  /\ alphaReference left = alphaReference right.
Proof.
  unfold StencilSettings.eq.
  rewrite !andb_true_iff, !bool_decide_eq_true, !Z.eqb_eq. tauto.
Qed.

Lemma fields_eq (left right : StencilSettings.t) :
  stencilOperation left = stencilOperation right ->
  stencilFunction left = stencilFunction right ->
  stencilReference left = stencilReference right ->
  alphaFunction left = alphaFunction right ->
  alphaReference left = alphaReference right ->
  StencilSettings.eq left right = true.
Proof.
  intros. unfold StencilSettings.eq.
  rewrite !andb_true_iff, !bool_decide_eq_true, !Z.eqb_eq. tauto.
Qed.

(** X15. operator== is reflexive, symmetric and transitive, and operator!=
    is false of a value and itself. *)
Theorem eq_is_equivalence :
  (forall s, StencilSettings.eq s s = true)
  /\ (forall s, StencilSettings.neq s s = false)
  /\ (forall l r, StencilSettings.eq l r = StencilSettings.eq r l)
  /\ (forall a b c, StencilSettings.eq a b = true -> StencilSettings.eq b c = true ->
                    StencilSettings.eq a c = true).
Proof.
  assert (Hrefl : forall s, StencilSettings.eq s s = true)
    by (intros s; by apply fields_eq).
  split; [done|]. split; [|split].
  - intros s. unfold neq. by rewrite Hrefl.
  - intros l r. destruct (StencilSettings.eq r l) eqn:Hrl.
    + apply eq_fields in Hrl as (? & ? & ? & ? & ?). by apply fields_eq.
    + destruct (StencilSettings.eq l r) eqn:Hlr; [|done].
      apply eq_fields in Hlr as (? & ? & ? & ? & ?).
      rewrite fields_eq in Hrl; done.
  - intros a b c (? & ? & ? & ? & ?)%eq_fields (? & ? & ? & ? & ?)%eq_fields.
    apply fields_eq; congruence.
Qed.

(** X16. apply cannot tell DecrementClamp from IncrementClamp, nor Less from
    Equal, as stencil function or as alpha function: the settings issue the
    same OpenGL calls. *)
Theorem apply_cannot_tell_aliases :
  (forall f r af ar d,
     apply over255 (construct f DecrementClamp r af ar d)
     = apply over255 (construct f IncrementClamp r af ar d))
  /\ (forall op r af ar d,
        apply over255 (construct Less op r af ar d)
        = apply over255 (construct Equal op r af ar d))
  /\ (forall f op r ar d,
        apply over255 (construct f op r Less ar d)
        = apply over255 (construct f op r Equal ar d)).
Proof. repeat split. Qed.

(** X17. Settings that are equal for operator== issue the same OpenGL calls
    exactly when they also agree on drawSelf, which decides the colour
    mask. *)
Theorem equal_settings_apply_alike_iff_drawSelf (left right : StencilSettings.t) :
  StencilSettings.eq left right = true ->
  apply over255 left = apply over255 right <-> drawSelf left = drawSelf right.
Proof.
  intros (Hop & Hfn & Href & Hafn & Haref)%eq_fields. split.
  - unfold apply. intros Happly.
    destruct (drawSelf left), (drawSelf right); try done; cbn in Happly;
      by injection Happly.
  - intros Hself. unfold apply.
    by rewrite Hop, Hfn, Href, Hafn, Haref, Hself.
Qed.

(** X19. Whatever the settings, apply never passes GL_LESS as a comparison
    nor GL_DECR as an operation, and it passes one and the same operation for
    the three outcomes of the stencil and depth tests. *)
Theorem apply_never_decrements_or_tests_less (s : StencilSettings.t) (c : GLCall F) :
  c ∈ apply over255 s ->
  match c with
  | glAlphaFunc func _ => func <> GL_LESS
  | glStencilFunc func _ mask => func <> GL_LESS /\ mask = 255%Z
  | glStencilOp sfail dpfail dppass =>
      sfail <> GL_DECR /\ dpfail = sfail /\ dppass = sfail
  | _ => True
  end.
Proof.
  unfold apply. rewrite !elem_of_cons, elem_of_nil.
  intros [->|[->|[->|[->|[->|[->|[]]]]]]]; try done.
  - by destruct (alphaFunction s).
  - by destruct (stencilOperation s).
  - by destruct (stencilFunction s).
  - by destruct (negb (drawSelf s)).
Qed.

End StencilExtraProperties.

(** ** BatchTarget: line strips as they are stored *)

Section LineStripProperties.
Context {C : Collaborators}.
Implicit Types (s : BatchTarget) (vs : list Vertex) (rs : RenderStates).

Lemma inPairs_line_strip {A : Type} (x : A) (l : list A) :
  inPairs (x :: flattenPairs (stripSegments (x :: l)))
  = map (fun v => (v, v)) (removelast (x :: l)).
Proof.
  revert x. induction l as [|y l IH]; intros x; [done|].
  change (inPairs (x :: flattenPairs (stripSegments (x :: y :: l))))
    with ((x, x) :: inPairs (y :: flattenPairs (stripSegments (y :: l)))).
  change (removelast (x :: y :: l)) with (x :: removelast (y :: l)).
  rewrite IH. reflexivity.
Qed.

(** X18. A LinesStrip call of N >= 1 vertices appends 2N-1 vertices: the
    first transformed vertex, then the two ends of each segment. Read two at
    a time from the first of them, they are the pairs (v_i, v_i) of every
    vertex but the last with itself. *)
Theorem line_strip_stores_first_vertex_then_segments s vs rs s1 :
  1 <= length vs ->
  fitsSizeT (length (m_vertexArray s) + 3 * length vs) ->
  checkOrRecord s Lines rs = Done s1 ->
  let input := map (transformVertex rs) vs in
  exists v0 stored,
    head input = Some v0
    /\ stored = v0 :: flattenPairs (stripSegments input)
    /\ draw s vs LinesStrip rs = Done (set_vertexArray (m_vertexArray s ++ stored) s1)
    /\ length stored = 2 * length vs - 1
    /\ inPairs stored = map (fun v => (v, v)) (removelast input).
Proof.
  intros Hlen Hfit Hcheck input.
  destruct vs as [|v vs]; [simpl in Hlen; lia|].
  exists (transformVertex rs v), (storedBy LinesStrip input).
  split; [done|]. split; [done|]. split; [by apply draw_stores|]. split.
  - unfold input. cbn [storedBy map length].
    rewrite length_flattenPairs.
    change (transformVertex rs v :: map (transformVertex rs) vs)
      with (map (transformVertex rs) (v :: vs)).
    rewrite length_stripSegments, length_map. cbn [length]. lia.
  - unfold input. cbn [storedBy map]. apply inPairs_line_strip.
Qed.

End LineStripProperties.

(** ** The further properties on concrete submissions *)

Section MoreScenarios.
#[local] Existing Instance Demo.collaborators.
Import Demo StencilSettings.

Lemma draw_never_reads_out_of_range_witness :
  fitsSizeT (length (m_vertexArray fresh) + 3 * length [c0; c1; c2; c3])
  /\ draw fresh [c0; c1; c2; c3] TrianglesFan plain <> OutOfRange
  /\ (m_hasDrawnSomething fresh = false ->
      exists s', draw fresh [c0; c1; c2; c3] TrianglesFan plain = Done s').
Proof.
  assert (H : fitsSizeT (length (m_vertexArray fresh) + 3 * length [c0; c1; c2; c3]))
    by reflexivity.
  exact (conj H (draw_never_reads_out_of_range fresh [c0; c1; c2; c3] TrianglesFan plain H)).
Defined.

Lemma draw_appends_transformed_inputs_witness :
  fitsSizeT (length (m_vertexArray (committed Triangles [c0; c1; c2]))
             + 3 * length [c1; c2; c3; c4])
  /\ exists stored,
       [c0; c1; c2; c1; c2; c3; c2; c3; c4] = [c0; c1; c2] ++ stored
       /\ 4 <= length stored <= 3 * 4
       /\ forall v, v ∈ stored ->
            exists u, u ∈ [c1; c2; c3; c4]
              /\ position v = transformPoint (transform plain) (position u)
              /\ color v = color u
              /\ texCoords v = texCoords u.
Proof.
  assert (H : fitsSizeT (length (m_vertexArray (committed Triangles [c0; c1; c2]))
                         + 3 * length [c1; c2; c3; c4])) by reflexivity.
  exact (conj H (draw_appends_transformed_inputs
                   (committed Triangles [c0; c1; c2]) [c1; c2; c3; c4] TrianglesStrip
                   plain (committed Triangles [c0; c1; c2; c1; c2; c3; c2; c3; c4])
                   H eq_refl)).
Defined.

Lemma simple_types_store_input_once_witness :
  draw (committed Lines [c0; c1]) [c2; c3] Lines plain
  = Done (committed Lines [c0; c1; c2; c3]).
Proof.
  exact (simple_types_store_input_once (committed Lines [c0; c1]) [c2; c3] Lines plain
           (committed Lines [c0; c1]) eq_refl eq_refl).
Defined.

Lemma strip_submission_stores_strip_triangles_witness :
  draw fresh [c0; c1; c2; c3] TrianglesStrip plain
  = Done (committed Triangles [c0; c1; c2; c1; c2; c3]).
Proof.
  assert (H1 : 3 <= length [c0; c1; c2; c3]) by (simpl; lia).
  assert (H2 : fitsSizeT (length (m_vertexArray fresh) + 3 * length [c0; c1; c2; c3]))
    by reflexivity.
  exact (proj1 (strip_submission_stores_strip_triangles
                  fresh [c0; c1; c2; c3] plain (committed Triangles []) H1 H2 eq_refl)).
Defined.

Lemma short_composite_stored_as_is_witness :
  draw (committed Triangles [c0; c1; c2]) [c3; c4] TrianglesFan plain
  = Done (committed Triangles [c0; c1; c2; c3; c4]).
Proof.
  assert (H1 : (TrianglesFan = LinesStrip /\ length [c3; c4] < 2)
               \/ ((TrianglesFan = TrianglesStrip \/ TrianglesFan = TrianglesFan)
                   /\ length [c3; c4] < 3))
    by (right; split; [by right|simpl; lia]).
  assert (H2 : fitsSizeT (length (m_vertexArray (committed Triangles [c0; c1; c2]))
                          + 3 * length [c3; c4])) by reflexivity.
  exact (short_composite_stored_as_is (committed Triangles [c0; c1; c2]) [c3; c4]
           TrianglesFan plain (committed Triangles [c0; c1; c2]) H1 H2 eq_refl).
Defined.

Lemma later_submission_accepted_iff_witness :
  (exists s', draw (committed Triangles [c0; c1; c2]) [c1; c2; c3] TrianglesStrip
                   (statesWith BlendAlpha (Some 0%Z)) = Done s')
  /\ ~ (exists s', draw (committed Triangles [c0; c1; c2]) [c1; c2; c3] TrianglesStrip
                        (statesWith BlendAlpha (Some 4%Z)) = Done s').
Proof.
  assert (H2 : fitsSizeT (length (m_vertexArray (committed Triangles [c0; c1; c2]))
                          + 3 * length [c1; c2; c3])) by reflexivity.
  split.
  - apply (later_submission_accepted_iff (committed Triangles [c0; c1; c2]) [c1; c2; c3]
             TrianglesStrip (statesWith BlendAlpha (Some 0%Z)) eq_refl H2).
    repeat split.
  - intros Hacc.
    apply (later_submission_accepted_iff (committed Triangles [c0; c1; c2]) [c1; c2; c3]
             TrianglesStrip (statesWith BlendAlpha (Some 4%Z)) eq_refl H2) in Hacc.
    destruct Hacc as (_ & _ & Htex & _). discriminate Htex.
Defined.

Lemma later_submission_changes_only_vertices_witness :
  m_cache (committed Triangles [c0; c1; c2; c1; c2; c3])
  = m_cache (committed Triangles [c0; c1; c2]).
Proof.
  exact (proj1 (proj2 (proj2 (proj2
           (later_submission_changes_only_vertices
              (committed Triangles [c0; c1; c2]) [c1; c2; c3] TrianglesStrip plain
              (committed Triangles [c0; c1; c2; c1; c2; c3]) eq_refl eq_refl))))).
Defined.

Lemma view_declared_mid_cycle_conflicts_witness :
  draw usedView [c1; c2; c3] Triangles plain = AssertionFailure ViewHasChanged.
Proof.
  exact (view_declared_mid_cycle_conflicts usedView [c1; c2; c3] Triangles plain
           eq_refl eq_refl).
Defined.

Lemma clearView_mid_cycle_witness :
  draw (clearView usedView) [c0; c1; c2] Triangles plain
  = Done (set_vertexArray [c0; c1; c2] (clearView usedView))
  /\ surface_calls (drawTo (clearView usedView) window plain)
     = [mkDrawCall 1%Z [] 0%Z Triangles plain].
Proof.
  assert (H : fitsSizeT (length (m_vertexArray usedView) + 3 * length [c0; c1; c2]))
    by reflexivity.
  destruct (clearView_mid_cycle usedView [c0; c1; c2] Triangles plain
              eq_refl eq_refl eq_refl eq_refl H) as [Hdraw Hreplay].
  exact (conj Hdraw (Hreplay window plain)).
Defined.

Lemma clear_draw_replay_witness :
  exists s',
    draw (clear usedView) [c0; c1; c2; c3] TrianglesFan plain = Done s'
    /\ m_vertexArray s' = [c0; c1; c2; c0; c2; c3]
    /\ surface_calls (drawTo s' window additive)
       = [mkDrawCall 6%Z [c0; c1; c2; c0; c2; c3] 6%Z Triangles plain].
Proof.
  assert (H : fitsSizeT (3 * length [c0; c1; c2; c3])) by reflexivity.
  exact (clear_draw_replay usedView [c0; c1; c2; c3] TrianglesFan plain window additive H).
Defined.

Lemma replay_issues_one_call_witness :
  surface_view (drawTo usedView window plain) = surface_view window.
Proof.
  exact (proj2 (proj2 (replay_issues_one_call usedView window plain)) eq_refl).
Defined.

Lemma agreeing_calls_all_accepted_witness :
  exists s',
    drawAll fresh [mkSubmission [c0; c1; c2] Triangles additive;
                   mkSubmission [c1; c2; c3; c4] TrianglesStrip plain;
                   mkSubmission [c0; c1; c2; c3] TrianglesFan plain] = Done s'
    /\ m_vertexArray s'
       = [c0; c1; c2; c1; c2; c3; c2; c3; c4; c0; c1; c2; c0; c2; c3].
Proof.
  assert (H : fitsSizeT (length (m_vertexArray fresh) + 3 *
                inputCount [mkSubmission [c0; c1; c2] Triangles additive;
                            mkSubmission [c1; c2; c3; c4] TrianglesStrip plain;
                            mkSubmission [c0; c1; c2; c3] TrianglesFan plain]))
    by reflexivity.
  refine (agreeing_calls_all_accepted fresh
            (mkSubmission [c0; c1; c2] Triangles additive)
            [mkSubmission [c1; c2; c3; c4] TrianglesStrip plain;
             mkSubmission [c0; c1; c2; c3] TrianglesFan plain] eq_refl _ H).
  repeat (constructor; [repeat split|]). constructor.
Defined.

Lemma whole_triangles_kept_witness :
  length [c0; c1; c2; c1; c2; c3; c2; c3; c4] `mod` 3 = 0
  /\ inTriples [c0; c1; c2; c1; c2; c3; c2; c3; c4]
     = [(c0, c1, c2)] ++ [(c1, c2, c3); (c2, c3, c4)].
Proof.
  assert (H : fitsSizeT (length (m_vertexArray (committed Triangles [c0; c1; c2]))
                         + 3 * length [c1; c2; c3; c4])) by reflexivity.
  assert (Hshape : (TrianglesStrip = Triangles /\ length [c1; c2; c3; c4] `mod` 3 = 0)
                   \/ ((TrianglesStrip = TrianglesStrip \/ TrianglesStrip = TrianglesFan)
                       /\ (3 <= length [c1; c2; c3; c4] \/ [c1; c2; c3; c4] = [])))
    by (right; split; [by left|left; simpl; lia]).
  exact (whole_triangles_kept (committed Triangles [c0; c1; c2]) [c1; c2; c3; c4]
           TrianglesStrip plain
           (committed Triangles [c0; c1; c2; c1; c2; c3; c2; c3; c4])
           H eq_refl eq_refl Hshape).
Defined.

Lemma line_strip_stores_first_vertex_then_segments_witness :
  exists v0 stored,
    head [c0; c1; c2] = Some v0
    /\ stored = v0 :: flattenPairs (stripSegments [c0; c1; c2])
    /\ draw fresh [c0; c1; c2] LinesStrip plain
       = Done (set_vertexArray ([] ++ stored) (committed Lines []))
    /\ length stored = 2 * 3 - 1
    /\ inPairs stored = [(c0, c0); (c1, c1)].
Proof.
  assert (H1 : 1 <= length [c0; c1; c2]) by (simpl; lia).
  assert (H2 : fitsSizeT (length (m_vertexArray fresh) + 3 * length [c0; c1; c2]))
    by reflexivity.
  exact (line_strip_stores_first_vertex_then_segments
           fresh [c0; c1; c2] plain (committed Lines []) H1 H2 eq_refl).
Defined.

Lemma eq_iff_fields_agree_witness :
  StencilSettings.eq StencilCreate (construct Always Replace 1 GreaterEqual 255 true)
  = true.
Proof.
  apply (eq_iff_fields_agree StencilCreate
           (construct Always Replace 1 GreaterEqual 255 true)).
  repeat split.
Defined.

Lemma eq_is_equivalence_witness :
  StencilSettings.eq StencilDisable (construct Always Keep 0 GreaterEqual 0 false) = true.
Proof.
  exact (proj2 (proj2 (proj2 eq_is_equivalence))
           StencilDisable StencilSettings.default
           (construct Always Keep 0 GreaterEqual 0 false) eq_refl eq_refl).
Defined.

Lemma equal_settings_apply_alike_iff_drawSelf_witness :
  StencilSettings.eq StencilCreate (construct Always Replace 1 GreaterEqual 255 true)
  = true
  /\ apply (fun z => z) StencilCreate
     <> apply (fun z => z) (construct Always Replace 1 GreaterEqual 255 true).
Proof.
  split; [reflexivity|]. intros Happly.
  apply (equal_settings_apply_alike_iff_drawSelf (fun z => z) StencilCreate
           (construct Always Replace 1 GreaterEqual 255 true) eq_refl) in Happly.
  discriminate Happly.
Defined.

Lemma apply_never_decrements_or_tests_less_witness :
  translateOperation DecrementClamp <> GL_DECR
  /\ translateOperation DecrementClamp = translateOperation DecrementClamp
  /\ translateOperation DecrementClamp = translateOperation DecrementClamp.
Proof.
  apply (apply_never_decrements_or_tests_less (fun z => z)
           (construct Less DecrementClamp 1 Less 255 true)
           (glStencilOp (translateOperation DecrementClamp)
                        (translateOperation DecrementClamp)
                        (translateOperation DecrementClamp))).
  unfold apply. rewrite !elem_of_cons. tauto.
Defined.

End MoreScenarios.
